(** * titan-vps: the transaction manager and the aliyun provisioning wrapper

    A shallow embedding of [node/transaction/manager.go] (the chain watcher,
    the transfer-request responder and the outbound mint/transfer executor)
    and of the request builders of [lib/aliyun/aliyun.go], with the
    properties of the design document checked against them.

    The Go code talks to a chain node, to a pub/sub bus and to a cloud API.
    Those collaborators are modelled as follows:
    - pure helpers of go-ethereum (address and hash encodings, key parsing,
      signer construction) are fields of the class [EthLib];
    - every network call is answered by an oracle of the record [World];
      an oracle also receives the logical time of the call (the number of
      calls made before it), so a world may answer the same call
      differently at different moments;
    - the code runs in the state monad [M]: the state holds the events
      published on the bus and the log of network calls made so far. *)

From Stdlib Require Import ZArith List String Ascii Bool Lia.
From Stdlib Require DecimalString DecimalZ DecimalPos.
Import ListNotations.
Local Open Scope string_scope.
Local Open Scope Z_scope.

Set Implicit Arguments.

(* ================================================================== *)
(** ** Go values *)

(** A Go [error] value: [nil] or an error carrying its message. *)
Definition error := option string.

(** The (value, error) pair returned by a library call, as a sum. *)
Inductive result (A : Type) : Type :=
| Ok (a : A)
| Err (msg : string).
Arguments Ok {A} a.
Arguments Err {A} msg.

(** [xerrors.Errorf("<prefix>%s", err.Error())] *)
Definition Errorf (prefix msg : string) : error := Some (prefix ++ msg).

(* ------------------------------------------------------------------ *)
(** *** math/big *)

Module big.

(** [*big.Int] values are the integers. *)
Definition Int := Z.

Definition is_digit (c : ascii) : bool :=
  let n := nat_of_ascii c in (48 <=? n)%nat && (n <=? 57)%nat.

Definition digit_value (c : ascii) : Z := Z.of_nat (nat_of_ascii c) - 48.

(** The longest prefix of decimal digits, accumulated most significant
    digit first, the number of digits read, and the unread rest. *)
Fixpoint scan_digits (s : string) (acc : Z) (count : nat) : Z * nat * string :=
  match s with
  | String c rest =>
      if is_digit c then scan_digits rest (10 * acc + digit_value c) (S count)
      else (acc, count, s)
  | EmptyString => (acc, count, s)
  end.

(** [z.SetString(s, 10)]: the value left in the receiver and the [ok]
    flag.  An optional sign is read, then decimal digits; the call
    succeeds only when at least one digit was read and the whole string
    was consumed.  On the empty string the receiver is untouched; with no
    digit it is left at 0; with trailing bytes it already holds the
    digits read. *)
Definition SetString (z : Int) (s : string) : Int * bool :=
  match s with
  | EmptyString => (z, false)
  | String c rest =>
      let '(neg, body) :=
        if Ascii.eqb c "-" then (true, rest)
        else if Ascii.eqb c "+" then (false, rest)
        else (false, s) in
      let '(abs, count, unread) := scan_digits body 0 0 in
      match count with
      | O => (0, false)
      | S _ =>
          ((if neg then - abs else abs),
           match unread with EmptyString => true | _ => false end)
      end
  end.

(** Reinterpretation of the low 64 bits as a two's complement [int64]. *)
Definition to_int64 (x : Z) : Z := (x + 2 ^ 63) mod 2 ^ 64 - 2 ^ 63.

(** [x.Int64()]: [v := int64(low64(x.abs)); if x.neg { v = -v }]. *)
Definition Int64 (x : Int) : Z :=
  let v := to_int64 (Z.abs x mod 2 ^ 64) in
  if x <? 0 then to_int64 (- v) else v.

End big.

(* ================================================================== *)
(** ** The go-ethereum / filecoin helper surface *)

Class EthLib : Type := {
  (** [common.Address] with [common.HexToAddress] and [Address.Hex] *)
  Address : Type;
  HexToAddress : string -> Address;
  Address_Hex : Address -> string;
  (** [common.Hash] with [Hash.Hex] *)
  Hash : Type;
  Hash_Hex : Hash -> string;
  (** [*ecdsa.PrivateKey] and [crypto.HexToECDSA] *)
  PrivateKey : Type;
  HexToECDSA : string -> result PrivateKey;
  (** the [crypto.PublicKey] interface value of [privateKey.Public()] and
      the type assertion of that value to a pointer to [ecdsa.PublicKey] *)
  PublicKey : Type;
  ECDSAPublicKey : Type;
  Public : PrivateKey -> PublicKey;
  assert_ecdsa : PublicKey -> option ECDSAPublicKey;
  PubkeyToAddress : ECDSAPublicKey -> Address;
  (** [etypes.Signer] and [etypes.LatestSignerForChainID] *)
  Signer : Type;
  LatestSignerForChainID : big.Int -> Signer;
  (** [*etypes.Transaction] and [Transaction.Hash] *)
  Transaction : Type;
  Transaction_Hash : Transaction -> Hash;
  (** handles: [*ethclient.Client], [*fvm.Abi], [event.Subscription] *)
  Client : Type;
  Abi : Type;
  Subscription : Type;
  (** [cid.Cid] and the filecoin [address.Address] with its [String] *)
  Cid : Type;
  FilAddress : Type;
  FilAddress_String : FilAddress -> string
}.

(* ================================================================== *)
(** ** api/types: the bus topics and payloads used by the manager

    [manager.go] builds [FvmTransferWatch] with the fields [ID], [From],
    [To] and [Value], the last one from an [int64] expression, and uses the
    topics [EventTransferWatch], [EventTransferReq] and [EventTransferRep];
    the records below have that shape.  (The declaration of
    [FvmTransferWatch] in [api/types/basis.go] names the first field
    [TxHash] and declares [Value] a [string].)  The fields of
    [FvmTransferReq] and [FvmTransferRep] are those [subscribeEvents]
    reads and writes; [To] and [Value] of a request are the two string
    arguments of [Mint]. *)

Module types.

Inductive EventTopics : Type :=
| EventTransferWatch
| EventTransferReq
| EventTransferRep.

Module FvmTransferWatch.
Record t : Type := Build { ID : string; From : string; To : string; Value : Z }.
End FvmTransferWatch.

Module FvmTransferReq.
Record t : Type := Build { ID : string; To : string; Value : string }.
End FvmTransferReq.

Module FvmTransferRep.
Record t : Type := Build { ID : string; TxHash : string; Msg : string }.
End FvmTransferRep.

(** What travels on the bus is an [interface{}]: one of the three
    payloads above, or any other value. *)
Inductive Payload : Type :=
| Watch (e : FvmTransferWatch.t)
| Req (e : FvmTransferReq.t)
| Rep (e : FvmTransferRep.t)
| Other.

End types.
Import types.

(* ================================================================== *)
(** ** node/config and the structures filled by the filecoin RPC helpers

    [config.BasisCfg], [tipSet], [message] and [lookup] are given the
    fields the manager reads. *)

Module config.
Record BasisCfg : Type := {
  LotusWsAddr : string;
  LotusHTTPSAddr : string;
  TitanContractorAddr : string;
  PrivateKeyStr : string
}.
End config.

Section Transaction.

Context {lib : EthLib}.

(** [tipSet], [message] and [lookup] of package [transaction]. *)
Record tipSet : Type := { Height : Z }.

Record message : Type := {
  msg_From : FilAddress;
  msg_To : FilAddress;
  msg_Value : big.Int
}.

Record receipt : Type := { ExitCode : Z; GasUsed : Z }.
Record lookup : Type := { lookup_Height : Z; Receipt : receipt }.

(** [fvm.AbiTransfer]: a decoded Transfer log and the raw log entry. *)
Record Log : Type := { TxHash : Hash; BlockNumber : Z; Removed : bool }.
Record AbiTransfer : Type := {
  From : Address;
  To : Address;
  Value : big.Int;
  Raw : Log
}.

(** The [Signer] closure of [bind.TransactOpts]: it captures the signer
    and the private key and calls [etypes.SignTx] with them. *)
Record SignerFn : Type := SignTx { sign_with : Signer; sign_key : PrivateKey }.

Record TransactOpts : Type := {
  opts_Signer : SignerFn;
  opts_From : Address
}.

(* ---------------------------------------------------------------- *)
(** *** Network calls, the world that answers them, and the state *)

Inductive Call : Type :=
| CallDial (addr : string)
| CallNewAbi (token : Address) (c : Client)
| CallNetworkID (c : Client)
| CallMint (abi : Abi) (opts : TransactOpts) (to : Address) (amount : big.Int)
| CallTransfer (abi : Abi) (opts : TransactOpts) (to : Address) (amount : big.Int)
| CallBalanceOf (abi : Abi) (account : Address)
| CallWatchTransfer (abi : Abi)
| CallChainHead (addr : string)
| CallEthGetMessageCidByTransactionHash (tx addr : string)
| CallChainGetMessage (c : Cid) (addr : string)
| CallStateSearchMsg (c : Cid) (addr : string).

Record World : Type := {
  ethclient_Dial : nat -> string -> result Client;
  fvm_NewAbi : nat -> Address -> Client -> result Abi;
  client_NetworkID : nat -> Client -> result big.Int;
  abi_Mint : nat -> Abi -> TransactOpts -> Address -> big.Int -> result Transaction;
  abi_Transfer : nat -> Abi -> TransactOpts -> Address -> big.Int -> result Transaction;
  abi_BalanceOf : nat -> Abi -> Address -> option big.Int * error;
  abi_WatchTransfer : nat -> Abi -> result Subscription;
  fvm_ChainHead : nat -> string -> result tipSet;
  fvm_EthGetMessageCidByTransactionHash : nat -> string -> string -> result Cid;
  fvm_ChainGetMessage : nat -> Cid -> string -> result message;
  fvm_StateSearchMsg : nat -> Cid -> string -> result lookup
}.

Record State : Type := {
  (** events published on the bus, oldest first, with their topic *)
  pubs : list (EventTopics * Payload);
  (** network calls made, oldest first *)
  calls : list Call
}.

Definition init : State := {| pubs := []; calls := [] |}.

Definition M (A : Type) : Type := State -> State * A.

Definition ret {A} (a : A) : M A := fun s => (s, a).

Definition bind {A B} (c : M A) (k : A -> M B) : M B :=
  fun s => let '(s', a) := c s in k a s'.

(** [m.notify.Pub(v, topic.String())] *)
Definition Pub (v : Payload) (topic : EventTopics) : M unit :=
  fun s => ({| pubs := pubs s ++ [(topic, v)]; calls := calls s |}, tt).

(** A network call: logged, and answered by the world at the current
    logical time. *)
Definition call {A} (c : Call) (answer : nat -> A) : M A :=
  fun s => ({| pubs := pubs s; calls := calls s ++ [c] |},
            answer (List.length (calls s))).

Variable w : World.

Definition Dial (addr : string) : M (result Client) :=
  call (CallDial addr) (fun t => ethclient_Dial w t addr).
Definition NewAbi (token : Address) (c : Client) : M (result Abi) :=
  call (CallNewAbi token c) (fun t => fvm_NewAbi w t token c).
Definition NetworkID (c : Client) : M (result big.Int) :=
  call (CallNetworkID c) (fun t => client_NetworkID w t c).
Definition Abi_Mint (a : Abi) (o : TransactOpts) (to : Address) (v : big.Int)
  : M (result Transaction) :=
  call (CallMint a o to v) (fun t => abi_Mint w t a o to v).
Definition Abi_Transfer (a : Abi) (o : TransactOpts) (to : Address) (v : big.Int)
  : M (result Transaction) :=
  call (CallTransfer a o to v) (fun t => abi_Transfer w t a o to v).
Definition BalanceOf (a : Abi) (account : Address) : M (option big.Int * error) :=
  call (CallBalanceOf a account) (fun t => abi_BalanceOf w t a account).
Definition WatchTransfer (a : Abi) : M (result Subscription) :=
  call (CallWatchTransfer a) (fun t => abi_WatchTransfer w t a).
Definition ChainHead (addr : string) : M (result tipSet) :=
  call (CallChainHead addr) (fun t => fvm_ChainHead w t addr).
Definition EthGetMessageCidByTransactionHash (tx addr : string) : M (result Cid) :=
  call (CallEthGetMessageCidByTransactionHash tx addr)
       (fun t => fvm_EthGetMessageCidByTransactionHash w t tx addr).
Definition ChainGetMessage (c : Cid) (addr : string) : M (result message) :=
  call (CallChainGetMessage c addr) (fun t => fvm_ChainGetMessage w t c addr).
Definition StateSearchMsg (c : Cid) (addr : string) : M (result lookup) :=
  call (CallStateSearchMsg c addr) (fun t => fvm_StateSearchMsg w t c addr).

End Transaction.

Declare Scope go_scope.
Delimit Scope go_scope with go.
Notation "x <- c ;; k" := (bind c (fun x => k))
  (at level 61, c at next level, right associativity) : go_scope.
Notation "c ;;; k" := (bind c (fun _ => k))
  (at level 61, right associativity) : go_scope.
(** [x, err := c; if err != nil { return h }; k] *)
Notation "x <-? c 'or_return' h ;; k" :=
  (bind c (fun r => match r with
                    | Ok x => k
                    | Err err => ret (h err)
                    end))
  (at level 61, c at next level, h at next level, right associativity,
   only parsing) : go_scope.

(* ================================================================== *)
(** ** node/transaction: the manager

    Logging calls are left out: they touch neither the bus nor the chain. *)

(** The [Manager] struct.  Its [notify] field, the bus, is the [pubs]
    component of the state. *)
Record Manager : Type := { cfg : config.BasisCfg }.

Section Manager.

Context {lib : EthLib}.
Variable w : World.
Local Open Scope go_scope.

(** [func (m *Manager) GetHeight() int64] *)
Definition GetHeight (m : Manager) : M Z :=
  r <- ChainHead w (config.LotusHTTPSAddr (cfg m)) ;;
  match r with
  | Err _ => ret 0
  | Ok msg => ret (Height msg)
  end.

(** [func (m *Manager) GetBalance(addr string)] returning a [*big.Int] and an [error] *)
Definition GetBalance (m : Manager) (addr : string) : M (option big.Int * error) :=
  client <-? Dial w (config.LotusHTTPSAddr (cfg m))
    or_return (fun e => (Some 0, Errorf "Dial err:" e)) ;;
  let tokenAddress := HexToAddress (config.TitanContractorAddr (cfg m)) in
  myAbi <-? NewAbi w tokenAddress client
    or_return (fun e => (Some 0, Errorf "NewAbi err:" e)) ;;
  BalanceOf w myAbi (HexToAddress addr).

(** [func (m *Manager) CheckMessage(tx string) error] *)
Definition CheckMessage (m : Manager) (tx : string) : M error :=
  cid <-? EthGetMessageCidByTransactionHash w tx (config.LotusHTTPSAddr (cfg m))
    or_return (fun e => Some e) ;;
  msg <-? ChainGetMessage w cid (config.LotusHTTPSAddr (cfg m))
    or_return (fun e => Some e) ;;
  info <-? StateSearchMsg w cid (config.LotusHTTPSAddr (cfg m))
    or_return (fun e => Some e) ;;
  if ExitCode (Receipt info) =? 0 then
    Pub (Watch {| FvmTransferWatch.ID := tx;
                  FvmTransferWatch.From := FilAddress_String (msg_From msg);
                  FvmTransferWatch.To := FilAddress_String (msg_To msg);
                  FvmTransferWatch.Value := big.Int64 (msg_Value msg) |})
        EventTransferWatch ;;;
    ret None
  else ret None.

(** [func (m *Manager) Mint(toAddr, valueStr string) (string, error)] *)
Definition Mint (m : Manager) (toAddr valueStr : string) : M (string * error) :=
  client <-? Dial w (config.LotusHTTPSAddr (cfg m))
    or_return (fun e => (EmptyString, Errorf "Dial err:" e)) ;;
  let tokenAddress := HexToAddress (config.TitanContractorAddr (cfg m)) in
  myAbi <-? NewAbi w tokenAddress client
    or_return (fun e => (EmptyString, Errorf "NewAbi err:" e)) ;;
  match HexToECDSA (config.PrivateKeyStr (cfg m)) with
  | Err e => ret (EmptyString, Errorf "HexToECDSA err:" e)
  | Ok privateKey =>
      let publicKey := Public privateKey in
      match assert_ecdsa publicKey with
      | None => ret (EmptyString, Some "publicKey err:")
      | Some publicKeyECDSA =>
          let fromAddress := PubkeyToAddress publicKeyECDSA in
          (* amount := new(big.Int); amount.SetString(valueStr, 10) *)
          let amount := fst (big.SetString 0 valueStr) in
          chainID <-? NetworkID w client
            or_return (fun e => (EmptyString, Errorf "NetworkID err:" e)) ;;
          let signer := LatestSignerForChainID chainID in
          let opt := {| opts_Signer := SignTx signer privateKey;
                        opts_From := fromAddress |} in
          tr <-? Abi_Mint w myAbi opt (HexToAddress toAddr) amount
            or_return (fun e => (EmptyString, Errorf "Mint err:" e)) ;;
          ret (Hash_Hex (Transaction_Hash tr), None)
      end
  end.

(** [func (m *Manager) Transfer(toAddr, valueStr string) (string, error)] *)
Definition Transfer (m : Manager) (toAddr valueStr : string) : M (string * error) :=
  client <-? Dial w (config.LotusHTTPSAddr (cfg m))
    or_return (fun e => (EmptyString, Errorf "Dial err:" e)) ;;
  match HexToECDSA (config.PrivateKeyStr (cfg m)) with
  | Err e => ret (EmptyString, Errorf "HexToECDSA err:" e)
  | Ok privateKey =>
      let publicKey := Public privateKey in
      match assert_ecdsa publicKey with
      | None => ret (EmptyString, Some "publicKey err:")
      | Some publicKeyECDSA =>
          let fromAddress := PubkeyToAddress publicKeyECDSA in
          let toAddress := HexToAddress toAddr in
          let tokenAddress := HexToAddress (config.TitanContractorAddr (cfg m)) in
          myAbi <-? NewAbi w tokenAddress client
            or_return (fun e => (EmptyString, Errorf "NewAbi err:" e)) ;;
          let amount := fst (big.SetString 0 valueStr) in
          chainID <-? NetworkID w client
            or_return (fun e => (EmptyString, Errorf "NetworkID err:" e)) ;;
          let signer := LatestSignerForChainID chainID in
          let to := {| opts_Signer := SignTx signer privateKey;
                       opts_From := fromAddress |} in
          signedTx <-? Abi_Transfer w myAbi to toAddress amount
            or_return (fun e => (EmptyString, Errorf "Transfer err:" e)) ;;
          ret (Hash_Hex (Transaction_Hash signedTx), None)
      end
  end.

(* ---------------------------------------------------------------- *)
(** *** The chain watcher: [watchTransactions] *)

(** What one [select] of the watcher loop receives: a value from
    [sub.Err()] (possibly [nil]) or a transfer from [sink]. *)
Inductive Select : Type :=
| RecvErr (err : error)
| RecvSink (tr : AbiTransfer).

(** After one iteration the loop goes on with a subscription, or the
    function has returned. *)
Inductive Flow : Type :=
| Continue (sub : Subscription)
| Return (err : error).

(** How far a goroutine got once its input is used up: still blocked in
    its [select], returned, or stopped by a panic. *)
Inductive Outcome : Type :=
| Blocked
| Returned (err : error)
| Panicked.

(** The body of the [for { select { ... } }] of [watchTransactions]. *)
Definition watch_iteration (m : Manager) (myAbi : Abi) (sub : Subscription)
           (sel : Select) : M Flow :=
  match sel with
  | RecvErr None => ret (Continue sub)
  | RecvErr (Some _) =>
      r <- WatchTransfer w myAbi ;;
      match r with
      | Ok sub' => ret (Continue sub')
      | Err e => ret (Return (Errorf "Transfer err:" e))
      end
  | RecvSink tr =>
      if negb (Removed (Raw tr)) then
        Pub (Watch {| FvmTransferWatch.ID := Hash_Hex (TxHash (Raw tr));
                      FvmTransferWatch.From := Address_Hex (From tr);
                      FvmTransferWatch.To := Address_Hex (To tr);
                      FvmTransferWatch.Value := big.Int64 (Value tr) |})
            EventTransferWatch ;;;
        ret (Continue sub)
      else ret (Continue sub)
  end.

Fixpoint watch_loop (m : Manager) (myAbi : Abi) (sub : Subscription)
         (sels : list Select) : M Outcome :=
  match sels with
  | [] => ret Blocked
  | sel :: rest =>
      f <- watch_iteration m myAbi sub sel ;;
      match f with
      | Continue sub' => watch_loop m myAbi sub' rest
      | Return err => ret (Returned err)
      end
  end.

(** [func (m *Manager) watchTransactions() error], run against the
    sequence of values its [select] receives. *)
Definition watchTransactions (m : Manager) (sels : list Select) : M Outcome :=
  client <-? Dial w (config.LotusWsAddr (cfg m))
    or_return (fun e => Returned (Errorf "Dial err:" e)) ;;
  let tokenAddress := HexToAddress (config.TitanContractorAddr (cfg m)) in
  myAbi <-? NewAbi w tokenAddress client
    or_return (fun e => Returned (Errorf "NewAbi err:" e)) ;;
  sub <-? WatchTransfer w myAbi
    or_return (fun e => Returned (Errorf "WatchTransfer err:" e)) ;;
  watch_loop m myAbi sub sels.

(* ---------------------------------------------------------------- *)
(** *** The transfer-request responder: [subscribeEvents] *)

(** One iteration of the loop of [subscribeEvents] on the value [u] read
    from the subscription; [None] when the unchecked type assertion
    of [u] to [*types.FvmTransferReq] panics. *)
Definition subscribeEvents_iteration (m : Manager) (u : Payload) : M (option unit) :=
  match u with
  | Req tr =>
      r <- Mint m (FvmTransferReq.To tr) (FvmTransferReq.Value tr) ;;
      let '(hash, err) := r in
      let msg := match err with
                 | Some e => e
                 | None => EmptyString
                 end in
      Pub (Rep {| FvmTransferRep.ID := FvmTransferReq.ID tr;
                  FvmTransferRep.TxHash := hash;
                  FvmTransferRep.Msg := msg |})
          EventTransferRep ;;;
      ret (Some tt)
  | _ => ret None
  end.

(** [func (m *Manager) subscribeEvents()], run against the sequence of
    values delivered on its subscription. *)
Fixpoint subscribeEvents (m : Manager) (us : list Payload) : M Outcome :=
  match us with
  | [] => ret Blocked
  | u :: rest =>
      r <- subscribeEvents_iteration m u ;;
      match r with
      | Some _ => subscribeEvents m rest
      | None => ret Panicked
      end
  end.

End Manager.

(* ================================================================== *)
(** ** lib/aliyun: [newClient], [CreateInstance] and [RunInstances]

    The ECS SDK is the collaborator here.  A call into it returns a
    response, returns an error (an [*tea.SDKError] or another error), or
    panics; the wrappers recover from panics with [tea.Recover]. *)

Module aliyun.

(** [tea.SDKError], with the fields the wrappers read or write. *)
Record SDKError : Type := { Code : option string; Message : option string }.

Inductive goerror : Type :=
| IsSDKError (e : SDKError)
| OtherError (msg : string).

(** [err.Error()] of an error that is not an [*tea.SDKError]; and the
    conversion every wrapper applies to a non-nil error. *)
Definition to_SDKError (err : goerror) : SDKError :=
  match err with
  | IsSDKError e => e
  | OtherError msg => {| Code := None; Message := Some msg |}
  end.

Inductive answer (A : Type) : Type :=
| Returns (a : A)
| Fails (err : goerror)
| Panics (value : string).
Arguments Returns {A} a.
Arguments Fails {A} err.
Arguments Panics {A} value.

Definition nil_dereference : string :=
  "runtime error: invalid memory address or nil pointer dereference".
Definition index_out_of_range_0 : string :=
  "runtime error: index out of range [0] with length 0".

Section Wrappers.

(** Go's [float32] and the SDK client handle. *)
Variables (float32 : Type) (EcsClient : Type).

Record Config : Type := {
  AccessKeyId : string;
  AccessKeySecret : string;
  cfg_RegionId : string
}.

(** [ecs20140526.CreateInstanceRequest], the fields that are set. *)
Record CreateInstanceRequest : Type := {
  ci_RegionId : string;
  ci_InstanceType : string;
  ci_DryRun : bool;
  ci_ImageId : string;
  ci_SecurityGroupId : string;
  ci_InstanceChargeType : string;
  ci_PeriodUnit : string;
  ci_Period : Z;
  ci_InternetMaxBandwidthOut : Z;
  ci_InternetMaxBandwidthIn : Z;
  ci_SystemDisk_Size : Z
}.

(** [ecs20140526.RunInstancesRequest], the fields that are set. *)
Record RunInstancesRequest : Type := {
  ri_RegionId : string;
  ri_InstanceType : string;
  ri_DryRun : bool;
  ri_ImageId : string;
  ri_SecurityGroupId : string;
  ri_InstanceChargeType : string;
  ri_PeriodUnit : string;
  ri_Period : Z;
  ri_Password : string;
  ri_InternetMaxBandwidthOut : Z;
  ri_InternetMaxBandwidthIn : Z
}.

(** Response bodies: every field is a pointer and may be nil. *)
Record CreateInstanceResponseBody : Type := {
  cb_InstanceId : option string;
  cb_OrderId : option string;
  cb_RequestId : option string;
  cb_TradePrice : option float32
}.

Record RunInstancesResponseBody : Type := {
  rb_InstanceIdSet : option (list (option string));
  rb_OrderId : option string;
  rb_RequestId : option string;
  rb_TradePrice : option float32
}.

(** [types.CreateInstanceResponse] of [api/types/basis.go] *)
Record CreateInstanceResponse : Type := {
  InstanceID : string;
  OrderId : string;
  RequestId : string;
  TradePrice : float32;
  PublicIpAddress : string;
  PrivateKey : string;
  PrivateKeyStatus : Z
}.

(** The requests that reach the SDK. *)
Inductive Submitted : Type :=
| SubmitCreateInstance (req : CreateInstanceRequest)
| SubmitRunInstances (req : RunInstancesRequest).

Record Ecs : Type := {
  NewClient : Config -> EcsClient + goerror;
  CreateInstanceWithOptions :
    EcsClient -> CreateInstanceRequest -> answer (option CreateInstanceResponseBody);
  RunInstancesWithOptions :
    EcsClient -> RunInstancesRequest -> answer (option RunInstancesResponseBody)
}.

Variable ecs : Ecs.

(** [newClient(regionID, keyID, keySecret)] *)
Definition newClient (regionID keyID keySecret : string) : EcsClient + SDKError :=
  let configClient := {| AccessKeyId := keyID;
                         AccessKeySecret := keySecret;
                         cfg_RegionId := regionID |} in
  match NewClient ecs configClient with
  | inr err => inr (to_SDKError err)
  | inl client => inl client
  end.

(** Dereferencing a pointer field inside the recovered closure: the
    value, or the panic value of a nil dereference. *)
Definition deref {A} (p : option A) : A + string :=
  match p with
  | Some a => inl a
  | None => inr nil_dereference
  end.

(** [*result.Body.InstanceIdSets.InstanceIdSet[0]] *)
Definition first_instance_id (ids : option (list (option string))) : string + string :=
  match ids with
  | None => inr nil_dereference
  | Some [] => inr index_out_of_range_0
  | Some (p :: _) => deref p
  end.

(** The composite literal assigned to [out] in [CreateInstance]; a
    panic while it is evaluated leaves [out] nil. *)
Definition create_out (body : option CreateInstanceResponseBody)
  : CreateInstanceResponse + string :=
  match body with
  | None => inr nil_dereference
  | Some b =>
      match deref (cb_InstanceId b), deref (cb_OrderId b),
            deref (cb_RequestId b), deref (cb_TradePrice b) with
      | inl i, inl o, inl r, inl p =>
          inl {| InstanceID := i; OrderId := o; RequestId := r; TradePrice := p;
                 PublicIpAddress := EmptyString; PrivateKey := EmptyString;
                 PrivateKeyStatus := 0 |}
      | inr v, _, _, _ | _, inr v, _, _ | _, _, inr v, _ | _, _, _, inr v => inr v
      end
  end.

Definition run_out (body : option RunInstancesResponseBody)
  : CreateInstanceResponse + string :=
  match body with
  | None => inr nil_dereference
  | Some b =>
      match first_instance_id (rb_InstanceIdSet b), deref (rb_OrderId b),
            deref (rb_RequestId b), deref (rb_TradePrice b) with
      | inl i, inl o, inl r, inl p =>
          inl {| InstanceID := i; OrderId := o; RequestId := r; TradePrice := p;
                 PublicIpAddress := EmptyString; PrivateKey := EmptyString;
                 PrivateKeyStatus := 0 |}
      | inr v, _, _, _ | _, inr v, _, _ | _, _, inr v, _ | _, _, _, inr v => inr v
      end
  end.

(** The closure [tryErr]: the SDK call, the construction of [out], and
    the deferred [tea.Recover(recover())], which turns a panic value
    into an error with that text. *)
Definition tryErr {B} (ans : answer B) (build : B -> CreateInstanceResponse + string)
  : option CreateInstanceResponse * option goerror :=
  match ans with
  | Fails err => (None, Some err)
  | Panics v => (None, Some (OtherError v))
  | Returns result =>
      match build result with
      | inl out => (Some out, None)
      | inr v => (None, Some (OtherError v))
      end
  end.

(** What a wrapper returns once [tryErr] has run. *)
Definition finish (r : option CreateInstanceResponse * option goerror)
  : option CreateInstanceResponse * option SDKError :=
  match r with
  | (out, Some err) => (out, Some (to_SDKError err))
  | (out, None) => (out, None)
  end.

(** [CreateInstance]: the requests submitted to the SDK and the
    returned pair. *)
Definition CreateInstance
           (regionID keyID keySecret instanceType imageID securityGroupID
              periodUnit : string) (period : Z) (dryRun : bool)
  : list Submitted * (option CreateInstanceResponse * option SDKError) :=
  match newClient regionID keyID keySecret with
  | inr err => ([], (None, Some err))
  | inl client =>
      let createInstanceRequest :=
        {| ci_RegionId := regionID;
           ci_InstanceType := instanceType;
           ci_DryRun := dryRun;
           ci_ImageId := imageID;
           ci_SecurityGroupId := securityGroupID;
           ci_InstanceChargeType := "PrePaid";
           ci_PeriodUnit := periodUnit;
           ci_Period := period;
           ci_InternetMaxBandwidthOut := 1;
           ci_InternetMaxBandwidthIn := 1;
           ci_SystemDisk_Size := 20 |} in
      ([SubmitCreateInstance createInstanceRequest],
       finish (tryErr (CreateInstanceWithOptions ecs client createInstanceRequest)
                      create_out))
  end.

(** [RunInstances] *)
Definition RunInstances
           (regionID keyID keySecret instanceType imageID password
              securityGroupID periodUnit : string) (period : Z)
  : list Submitted * (option CreateInstanceResponse * option SDKError) :=
  match newClient regionID keyID keySecret with
  | inr err => ([], (None, Some err))
  | inl client =>
      let createInstanceRequest :=
        {| ri_RegionId := regionID;
           ri_InstanceType := instanceType;
           ri_DryRun := true;
           ri_ImageId := imageID;
           ri_SecurityGroupId := securityGroupID;
           ri_InstanceChargeType := "PrePaid";
           ri_PeriodUnit := periodUnit;
           ri_Period := period;
           ri_Password := password;
           ri_InternetMaxBandwidthOut := 1;
           ri_InternetMaxBandwidthIn := 1 |} in
      ([SubmitRunInstances createInstanceRequest],
       finish (tryErr (RunInstancesWithOptions ecs client createInstanceRequest)
                      run_out))
  end.

(** The dry-run flag carried by a submitted request. *)
Definition dry_run (s : Submitted) : bool :=
  match s with
  | SubmitCreateInstance req => ci_DryRun req
  | SubmitRunInstances req => ri_DryRun req
  end.

End Wrappers.

(* ------------------------------------------------------------------ *)
(** *** The other wrappers of [aliyun.go]

    They share the shape of [CreateInstance]: [newClient], one request,
    one SDK call inside a closure that recovers from panics, and the
    conversion of the closure's error to an [*tea.SDKError]. *)

(** What an SDK method hands back: its (result, error) pair, both of
    which may be nil, or a panic. *)
Inductive reply (R : Type) : Type :=
| Reply (result : option R) (err : option goerror)
| Panic (value : string).
Arguments Reply {R} result err.
Arguments Panic {R} value.

(** [ecs20140526.AuthorizeSecurityGroupRequestPermissions], the fields
    that are set. *)
Record Permission : Type := {
  IpProtocol : string;
  SourceCidrIp : string;
  PortRange : string
}.

(** The response structures the wrappers look into.  Every field is a
    pointer and may be nil. *)
Record KeyPairBody : Type := {
  kp_KeyPairId : option string;
  kp_KeyPairName : option string;
  kp_PrivateKeyBody : option string
}.

Record AttachResult : Type := {
  ar_Code : option string;
  ar_InstanceId : option string;
  ar_Message : option string;
  ar_Success : option string
}.

(** [types.CreateKeyPairResponse] and [types.AttachKeyPairResponse] of
    [api/types/basis.go] *)
Record CreateKeyPairResponse : Type := {
  KeyPairID : string;
  KeyPairName : string;
  PrivateKeyBody : string
}.

Record AttachKeyPairResponse : Type := {
  attach_Code : string;
  attach_InstanceId : string;
  attach_Message : string;
  attach_Success : string
}.

Section MoreWrappers.

(** Go's [float32] with its zero value, and the SDK client handle. *)
Variables (float32 : Type) (zero32 : float32) (EcsClient : Type).

(** The SDK response types the wrappers hand back without looking into
    them, or ignore. *)
Variables (StartInstancesResponse DescribeInstanceAttributeResponse
           AuthorizeSecurityGroupResponse DescribeRegionsResponse
           DescribeRecommendInstanceTypeResponse DescribeImagesResponse
           DescribeAvailableResourceResponse RebootInstanceResponse : Type).

(** The requests the wrappers build: one constructor per SDK request
    type, with the fields that are set. *)
Inductive Request : Type :=
| StartInstancesRequest (RegionId : string) (InstanceId : list string)
| DescribeSecurityGroupsRequest (RegionId : string)
| DescribeInstanceAttributeRequest (InstanceId : string)
| AllocatePublicIpAddressRequest (InstanceId : string)
| DescribePriceRequest (RegionId InstanceType PriceUnit : string) (Period : Z)
                       (ImageId : string)
| AuthorizeSecurityGroupRequest (RegionId SecurityGroupId : string)
                                (Permissions : list Permission)
| DescribeRegionsRequest
| DescribeRecommendInstanceTypeRequest (NetworkType RegionId : string) (Cores : Z)
                                       (Memory : float32)
                                       (InstanceChargeType : string)
| CreateSecurityGroupRequest (RegionId : string)
| DescribeImagesRequest (RegionId InstanceType : string)
| DescribeAvailableResourceRequest (RegionId DestinationResource
                                      InstanceChargeType : string) (Cores : Z)
                                   (Memory : float32)
| CreateKeyPairRequest (RegionId KeyPairName : string)
| AttachKeyPairRequest (RegionId KeyPairName InstanceIds : string)
| RebootInstanceRequest (InstanceId : string).

(** [types.DescribePriceResponse] of [api/types/basis.go] *)
Record DescribePriceResponse : Type := {
  Currency : string;
  OriginalPrice : float32;
  dp_TradePrice : float32;
  USDPrice : float32
}.

(** The price structure with [float32] amounts. *)
Record PriceInfo : Type := {
  pi_Currency : option string;
  pi_OriginalPrice : option float32;
  pi_TradePrice : option float32
}.

(** The SDK methods.  For the wrappers that look into the response, the
    result is the structure they reach ([response.Body.SecurityGroups.
    SecurityGroup], [result.Body.IpAddress], [result.Body.PriceInfo.Price],
    [result.Body.SecurityGroupId], [result.Body], [result.Body.Results.
    Result]); a nil result stands for a nil pointer anywhere on that
    path, which is the same nil dereference. *)
Record Sdk : Type := {
  StartInstancesWithOptions : EcsClient -> Request -> reply StartInstancesResponse;
  DescribeSecurityGroupsWithOptions :
    EcsClient -> Request -> reply (list (option (option string)));
  DescribeInstanceAttributeWithOptions :
    EcsClient -> Request -> reply DescribeInstanceAttributeResponse;
  AllocatePublicIpAddressWithOptions : EcsClient -> Request -> reply (option string);
  DescribePriceWithOptions : EcsClient -> Request -> reply PriceInfo;
  AuthorizeSecurityGroupWithOptions :
    EcsClient -> Request -> reply AuthorizeSecurityGroupResponse;
  DescribeRegionsWithOptions : EcsClient -> Request -> reply DescribeRegionsResponse;
  DescribeRecommendInstanceTypeWithOptions :
    EcsClient -> Request -> reply DescribeRecommendInstanceTypeResponse;
  CreateSecurityGroupWithOptions : EcsClient -> Request -> reply (option string);
  DescribeImagesWithOptions : EcsClient -> Request -> reply DescribeImagesResponse;
  DescribeAvailableResourceWithOptions :
    EcsClient -> Request -> reply DescribeAvailableResourceResponse;
  CreateKeyPairWithOptions : EcsClient -> Request -> reply KeyPairBody;
  AttachKeyPairWithOptions : EcsClient -> Request -> reply (list (option AttachResult));
  RebootInstanceWithOptions : EcsClient -> Request -> reply RebootInstanceResponse
}.

Variable ecs : Ecs float32 EcsClient.
Variable sdk : Sdk.

(** [json.Marshal] on a slice of strings: the text, or an error. *)
Variable json_Marshal : list string -> string + string.

Definition defaultRegionID : string := "cn-hangzhou".

(** The block after the closure: [out] is returned as it stands, with
    the closure's error converted. *)
Definition returning {Out} (out : Out) (tryErr : option goerror)
  : Out * option SDKError :=
  match tryErr with
  | Some err => (out, Some (to_SDKError err))
  | None => (out, None)
  end.

(** A closure of the form
    [result, err := call; if err != nil { return err }; body(result)]
    under the deferred recover: [body] gives the new [out], or the [out]
    reached so far together with a panic value. *)
Definition closure {R Out} (out0 : Out) (r : reply R)
           (body : option R -> Out + Out * string) : Out * option goerror :=
  match r with
  | Panic v => (out0, Some (OtherError v))
  | Reply _ (Some err) => (out0, Some err)
  | Reply result None =>
      match body result with
      | inl out => (out, None)
      | inr (out, v) => (out, Some (OtherError v))
      end
  end.

(** A closure of the form [result, _e = call; if _e != nil { return _e }]
    with [result] the variable the wrapper returns: the result is kept
    whatever the error. *)
Definition closure_direct {R} (r : reply R) : option R * option goerror :=
  match r with
  | Panic v => (None, Some (OtherError v))
  | Reply result err => (result, err)
  end.

(** [StartInstance]: the requests sent and the returned error. *)
Definition StartInstance (regionID keyID keySecret instanceID : string)
  : list Request * option SDKError :=
  match newClient ecs regionID keyID keySecret with
  | inr err => ([], Some err)
  | inl client =>
      let startInstancesRequest := StartInstancesRequest regionID [instanceID] in
      ([startInstancesRequest],
       snd (returning tt
              (snd (closure tt (StartInstancesWithOptions sdk client startInstancesRequest)
                            (fun _ => inl tt)))))
  end.

(** The loop of [DescribeSecurityGroups]: ids are appended to [out] one
    by one; a nil group or a nil id panics with [out] as it is then. *)
Fixpoint append_group_ids (grop : list (option (option string))) (out : list string)
  : list string + list string * string :=
  match grop with
  | [] => inl out
  | Some (Some id) :: rest => append_group_ids rest (out ++ [id])
  | _ :: _ => inr (out, nil_dereference)
  end.

(** [DescribeSecurityGroups] *)
Definition DescribeSecurityGroups (regionID keyID keySecret : string)
  : list Request * (list string * option SDKError) :=
  match newClient ecs regionID keyID keySecret with
  | inr err => ([], ([], Some err))
  | inl client =>
      let describeSecurityGroupsRequest := DescribeSecurityGroupsRequest regionID in
      let '(out, tryErr) :=
        closure [] (DescribeSecurityGroupsWithOptions sdk client
                      describeSecurityGroupsRequest)
                (fun response =>
                   match response with
                   | None => inr ([], nil_dereference)
                   | Some grop => append_group_ids grop []
                   end) in
      ([describeSecurityGroupsRequest], returning out tryErr)
  end.

(** [DescribeInstanceAttribute]: [out = result], without a look at it. *)
Definition DescribeInstanceAttribute (regionID keyID keySecret instanceID : string)
  : list Request * (option DescribeInstanceAttributeResponse * option SDKError) :=
  match newClient ecs regionID keyID keySecret with
  | inr err => ([], (None, Some err))
  | inl client =>
      let describeInstanceAttributeRequest :=
        DescribeInstanceAttributeRequest instanceID in
      let '(out, tryErr) :=
        closure None (DescribeInstanceAttributeWithOptions sdk client
                        describeInstanceAttributeRequest)
                (fun result => inl result) in
      ([describeInstanceAttributeRequest], returning out tryErr)
  end.

(** [AllocatePublicIPAddress]: [out = *result.Body.IpAddress] *)
Definition AllocatePublicIPAddress (regionID keyID keySecret instanceID : string)
  : list Request * (string * option SDKError) :=
  match newClient ecs regionID keyID keySecret with
  | inr err => ([], (EmptyString, Some err))
  | inl client =>
      let allocatePublicIPAddressRequest := AllocatePublicIpAddressRequest instanceID in
      let '(out, tryErr) :=
        closure EmptyString
                (AllocatePublicIpAddressWithOptions sdk client
                   allocatePublicIPAddressRequest)
                (fun result =>
                   match result with
                   | Some (Some ip) => inl ip
                   | _ => inr (EmptyString, nil_dereference)
                   end) in
      ([allocatePublicIPAddressRequest], returning out tryErr)
  end.

(** [DescribePrice] *)
Definition DescribePrice (regionID keyID keySecret instanceType priceUnit
                            imageID : string) (period : Z)
  : list Request * (option DescribePriceResponse * option SDKError) :=
  match newClient ecs regionID keyID keySecret with
  | inr err => ([], (None, Some err))
  | inl client =>
      let describePriceRequest :=
        DescribePriceRequest regionID instanceType priceUnit period imageID in
      let '(out, tryErr) :=
        closure None (DescribePriceWithOptions sdk client describePriceRequest)
                (fun result =>
                   match result with
                   | Some {| pi_Currency := Some c;
                             pi_OriginalPrice := Some o;
                             pi_TradePrice := Some t |} =>
                       inl (Some {| Currency := c; OriginalPrice := o;
                                    dp_TradePrice := t; USDPrice := zero32 |})
                   | _ => inr (None, nil_dereference)
                   end) in
      ([describePriceRequest], returning out tryErr)
  end.

(** [AuthorizeSecurityGroup] *)
Definition AuthorizeSecurityGroup (regionID keyID keySecret securityGroupID : string)
  : list Request * option SDKError :=
  match newClient ecs regionID keyID keySecret with
  | inr err => ([], Some err)
  | inl client =>
      let authorizeSecurityGroupRequest :=
        AuthorizeSecurityGroupRequest regionID securityGroupID
          [ {| IpProtocol := "ALL";
               SourceCidrIp := "0.0.0.0/0";
               PortRange := "-1/-1" |} ] in
      ([authorizeSecurityGroupRequest],
       snd (returning tt
              (snd (closure tt (AuthorizeSecurityGroupWithOptions sdk client
                                  authorizeSecurityGroupRequest)
                            (fun _ => inl tt)))))
  end.

(** [DescribeRegions]: the client is always created for the default
    region. *)
Definition DescribeRegions (keyID keySecret : string)
  : list Request * (option DescribeRegionsResponse * option SDKError) :=
  match newClient ecs defaultRegionID keyID keySecret with
  | inr err => ([], (None, Some err))
  | inl client =>
      let describeRegionsRequest := DescribeRegionsRequest in
      let '(result, tryErr) :=
        closure_direct (DescribeRegionsWithOptions sdk client describeRegionsRequest) in
      ([describeRegionsRequest], returning result tryErr)
  end.

(** [DescribeRecommendInstanceType] *)
Definition DescribeRecommendInstanceType (regionID keyID keySecret : string)
           (cores : Z) (memory : float32)
  : list Request * (option DescribeRecommendInstanceTypeResponse * option SDKError) :=
  match newClient ecs regionID keyID keySecret with
  | inr err => ([], (None, Some err))
  | inl client =>
      let describeRecommendInstanceTypeRequest :=
        DescribeRecommendInstanceTypeRequest "vpc" regionID cores memory "PrePaid" in
      let '(result, tryErr) :=
        closure_direct (DescribeRecommendInstanceTypeWithOptions sdk client
                          describeRecommendInstanceTypeRequest) in
      ([describeRecommendInstanceTypeRequest], returning result tryErr)
  end.

(** [CreateSecurityGroup]: [out = *result.Body.SecurityGroupId] *)
Definition CreateSecurityGroup (regionID keyID keySecret : string)
  : list Request * (string * option SDKError) :=
  match newClient ecs regionID keyID keySecret with
  | inr err => ([], (EmptyString, Some err))
  | inl client =>
      let createSecurityGroupRequest := CreateSecurityGroupRequest regionID in
      let '(out, tryErr) :=
        closure EmptyString
                (CreateSecurityGroupWithOptions sdk client createSecurityGroupRequest)
                (fun result =>
                   match result with
                   | Some (Some id) => inl id
                   | _ => inr (EmptyString, nil_dereference)
                   end) in
      ([createSecurityGroupRequest], returning out tryErr)
  end.

(** [DescribeImages] *)
Definition DescribeImages (regionID keyID keySecret instanceType : string)
  : list Request * (option DescribeImagesResponse * option SDKError) :=
  match newClient ecs regionID keyID keySecret with
  | inr err => ([], (None, Some err))
  | inl client =>
      let createSecurityGroupRequest := DescribeImagesRequest regionID instanceType in
      let '(result, tryErr) :=
        closure_direct (DescribeImagesWithOptions sdk client
                          createSecurityGroupRequest) in
      ([createSecurityGroupRequest], returning result tryErr)
  end.

(** [DescribeAvailableResource] *)
Definition DescribeAvailableResource (regionID keyID keySecret : string)
           (cores : Z) (memory : float32)
  : list Request * (option DescribeAvailableResourceResponse * option SDKError) :=
  match newClient ecs regionID keyID keySecret with
  | inr err => ([], (None, Some err))
  | inl client =>
      let describeAvailableResourceRequest :=
        DescribeAvailableResourceRequest regionID "InstanceType" "PrePaid"
                                         cores memory in
      let '(result, tryErr) :=
        closure_direct (DescribeAvailableResourceWithOptions sdk client
                          describeAvailableResourceRequest) in
      ([describeAvailableResourceRequest], returning result tryErr)
  end.

(** [CreateKeyPair] *)
Definition CreateKeyPair (regionID keyID keySecret KeyPairName_ : string)
  : list Request * (option CreateKeyPairResponse * option SDKError) :=
  match newClient ecs regionID keyID keySecret with
  | inr err => ([], (None, Some err))
  | inl client =>
      let createKeyPairRequest := CreateKeyPairRequest regionID KeyPairName_ in
      let '(out, tryErr) :=
        closure None (CreateKeyPairWithOptions sdk client createKeyPairRequest)
                (fun keyInfo =>
                   match keyInfo with
                   | Some {| kp_KeyPairId := Some i;
                             kp_KeyPairName := Some n;
                             kp_PrivateKeyBody := Some b |} =>
                       inl (Some {| KeyPairID := i; KeyPairName := n;
                                    PrivateKeyBody := b |})
                   | _ => inr (None, nil_dereference)
                   end) in
      ([createKeyPairRequest], returning out tryErr)
  end.

(** The loop of [AttachKeyPair]: one entry is appended to [out] per
    result; a nil result or a nil field panics with [out] as it is then. *)
Fixpoint append_attach_results (results : list (option AttachResult))
         (out : list AttachKeyPairResponse)
  : list AttachKeyPairResponse + list AttachKeyPairResponse * string :=
  match results with
  | [] => inl out
  | Some {| ar_Code := Some c; ar_InstanceId := Some i;
            ar_Message := Some m; ar_Success := Some s |} :: rest =>
      append_attach_results rest
        (out ++ [ {| attach_Code := c; attach_InstanceId := i;
                     attach_Message := m; attach_Success := s |} ])
  | _ :: _ => inr (out, nil_dereference)
  end.

(** [AttachKeyPair]: a failure of [json.Marshal] is logged and the
    request goes out with the empty text. *)
Definition AttachKeyPair (regionID keyID keySecret KeyPairName_ : string)
           (instanceIds : list string)
  : list Request * (list AttachKeyPairResponse * option SDKError) :=
  match newClient ecs regionID keyID keySecret with
  | inr err => ([], ([], Some err))
  | inl client =>
      let instanceIdSting :=
        match json_Marshal instanceIds with
        | inl instanceIdsByte => instanceIdsByte
        | inr _ => EmptyString
        end in
      let attachKeyPairRequest :=
        AttachKeyPairRequest regionID KeyPairName_ instanceIdSting in
      let '(out, tryErr) :=
        closure [] (AttachKeyPairWithOptions sdk client attachKeyPairRequest)
                (fun result =>
                   match result with
                   | None => inr ([], nil_dereference)
                   | Some results => append_attach_results results []
                   end) in
      ([attachKeyPairRequest], returning out tryErr)
  end.

(** [RebootInstance] *)
Definition RebootInstance (regionID keyID keySecret instanceId : string)
  : list Request * (option RebootInstanceResponse * option SDKError) :=
  match newClient ecs regionID keyID keySecret with
  | inr err => ([], (None, Some err))
  | inl client =>
      let rebootInstanceRequest := RebootInstanceRequest instanceId in
      let '(result, tryErr) :=
        closure_direct (RebootInstanceWithOptions sdk client rebootInstanceRequest) in
      ([rebootInstanceRequest], returning result tryErr)
  end.

(** A call of one of the wrappers of [aliyun.go], with its arguments. *)
Inductive Invocation : Type :=
| InvCreateInstance (regionID keyID keySecret instanceType imageID securityGroupID
                       periodUnit : string) (period : Z) (dryRun : bool)
| InvRunInstances (regionID keyID keySecret instanceType imageID password
                     securityGroupID periodUnit : string) (period : Z)
| InvStartInstance (regionID keyID keySecret instanceID : string)
| InvDescribeSecurityGroups (regionID keyID keySecret : string)
| InvDescribeInstanceAttribute (regionID keyID keySecret instanceID : string)
| InvAllocatePublicIPAddress (regionID keyID keySecret instanceID : string)
| InvDescribePrice (regionID keyID keySecret instanceType priceUnit imageID : string)
                   (period : Z)
| InvAuthorizeSecurityGroup (regionID keyID keySecret securityGroupID : string)
| InvDescribeRegions (keyID keySecret : string)
| InvDescribeRecommendInstanceType (regionID keyID keySecret : string) (cores : Z)
                                   (memory : float32)
| InvCreateSecurityGroup (regionID keyID keySecret : string)
| InvDescribeImages (regionID keyID keySecret instanceType : string)
| InvDescribeAvailableResource (regionID keyID keySecret : string) (cores : Z)
                               (memory : float32)
| InvCreateKeyPair (regionID keyID keySecret KeyPairName_ : string)
| InvAttachKeyPair (regionID keyID keySecret KeyPairName_ : string)
                   (instanceIds : list string)
| InvRebootInstance (regionID keyID keySecret instanceId : string).


(** The error an invocation returns. *)
Definition failure (i : Invocation) : option SDKError :=
  match i with
  | InvCreateInstance r k s t im sg pu p d =>
      snd (snd (CreateInstance ecs r k s t im sg pu p d))
  | InvRunInstances r k s t im pw sg pu p =>
      snd (snd (RunInstances ecs r k s t im pw sg pu p))
  | InvStartInstance r k s i => snd (StartInstance r k s i)
  | InvDescribeSecurityGroups r k s => snd (snd (DescribeSecurityGroups r k s))
  | InvDescribeInstanceAttribute r k s i =>
      snd (snd (DescribeInstanceAttribute r k s i))
  | InvAllocatePublicIPAddress r k s i => snd (snd (AllocatePublicIPAddress r k s i))
  | InvDescribePrice r k s t u im p => snd (snd (DescribePrice r k s t u im p))
  | InvAuthorizeSecurityGroup r k s g => snd (AuthorizeSecurityGroup r k s g)
  | InvDescribeRegions k s => snd (snd (DescribeRegions k s))
  | InvDescribeRecommendInstanceType r k s c m =>
      snd (snd (DescribeRecommendInstanceType r k s c m))
  | InvCreateSecurityGroup r k s => snd (snd (CreateSecurityGroup r k s))
  | InvDescribeImages r k s t => snd (snd (DescribeImages r k s t))
  | InvDescribeAvailableResource r k s c m =>
      snd (snd (DescribeAvailableResource r k s c m))
  | InvCreateKeyPair r k s n => snd (snd (CreateKeyPair r k s n))
  | InvAttachKeyPair r k s n ids => snd (snd (AttachKeyPair r k s n ids))
  | InvRebootInstance r k s i => snd (snd (RebootInstance r k s i))
  end.

(** The client an invocation asks [newClient] for: every wrapper passes
    its own region, except [DescribeRegions]. *)
Definition client_of (i : Invocation) : EcsClient + SDKError :=
  match i with
  | InvDescribeRegions k s => newClient ecs defaultRegionID k s
  | InvCreateInstance r k s _ _ _ _ _ _
  | InvRunInstances r k s _ _ _ _ _ _
  | InvStartInstance r k s _
  | InvDescribeSecurityGroups r k s
  | InvDescribeInstanceAttribute r k s _
  | InvAllocatePublicIPAddress r k s _
  | InvDescribePrice r k s _ _ _ _
  | InvAuthorizeSecurityGroup r k s _
  | InvDescribeRecommendInstanceType r k s _ _
  | InvCreateSecurityGroup r k s
  | InvDescribeImages r k s _
  | InvDescribeAvailableResource r k s _ _
  | InvCreateKeyPair r k s _
  | InvAttachKeyPair r k s _ _
  | InvRebootInstance r k s _ => newClient ecs r k s
  end.

(** The ids at the head of a list of security groups, up to the first
    nil group or nil id. *)
Fixpoint present_ids (grop : list (option (option string))) : list string :=
  match grop with
  | Some (Some id) :: rest => id :: present_ids rest
  | _ => []
  end.

(** The entries at the head of a list of attach results, up to the first
    nil result or nil field. *)
Fixpoint present_results (results : list (option AttachResult))
  : list AttachKeyPairResponse :=
  match results with
  | Some {| ar_Code := Some c; ar_InstanceId := Some i;
            ar_Message := Some m; ar_Success := Some s |} :: rest =>
      {| attach_Code := c; attach_InstanceId := i;
         attach_Message := m; attach_Success := s |} :: present_results rest
  | _ => []
  end.

(** The error a wrapper returns for a nil dereference. *)
Definition nil_dereference_error : SDKError :=
  {| Code := None; Message := Some nil_dereference |}.

End MoreWrappers.

End aliyun.

(* ================================================================== *)
(** ** Specification vocabulary *)

Section Vocabulary.

Context {lib : EthLib}.

(** The two operations of the outbound executor. *)
Inductive Outbound : Type := DoMint | DoTransfer.

Definition execute (w : World) (op : Outbound) : Manager -> string -> string -> M (string * error) :=
  match op with
  | DoMint => Mint w
  | DoTransfer => Transfer w
  end.

(** The contract call an outbound operation ends with, and its answer. *)
Definition contract_call (op : Outbound) : Abi -> TransactOpts -> Address -> big.Int -> Call :=
  match op with
  | DoMint => CallMint
  | DoTransfer => CallTransfer
  end.

Definition contract_answer (w : World) (op : Outbound)
  : nat -> Abi -> TransactOpts -> Address -> big.Int -> result Transaction :=
  match op with
  | DoMint => abi_Mint w
  | DoTransfer => abi_Transfer w
  end.

Definition contract_prefix (op : Outbound) : string :=
  match op with
  | DoMint => "Mint err:"
  | DoTransfer => "Transfer err:"
  end.

Definition is_err {A} (r : result A) : bool :=
  match r with
  | Ok _ => false
  | Err _ => true
  end.

(** Whether the world answers call [c], made at time [t], with an error. *)
Definition failed (w : World) (t : nat) (c : Call) : bool :=
  match c with
  | CallDial addr => is_err (ethclient_Dial w t addr)
  | CallNewAbi token cl => is_err (fvm_NewAbi w t token cl)
  | CallNetworkID cl => is_err (client_NetworkID w t cl)
  | CallMint a o to v => is_err (abi_Mint w t a o to v)
  | CallTransfer a o to v => is_err (abi_Transfer w t a o to v)
  | CallBalanceOf a account =>
      match snd (abi_BalanceOf w t a account) with
      | Some _ => true
      | None => false
      end
  | CallWatchTransfer a => is_err (abi_WatchTransfer w t a)
  | CallChainHead addr => is_err (fvm_ChainHead w t addr)
  | CallEthGetMessageCidByTransactionHash tx addr =>
      is_err (fvm_EthGetMessageCidByTransactionHash w t tx addr)
  | CallChainGetMessage c addr => is_err (fvm_ChainGetMessage w t c addr)
  | CallStateSearchMsg c addr => is_err (fvm_StateSearchMsg w t c addr)
  end.

(** An operation propagates failures without retrying: whenever one of
    the network calls it makes is answered with an error, that call is
    the last one it makes and it returns a non-nil error. *)
Definition propagates {A} (w : World) (err_of : A -> error) (op : M A) : Prop :=
  forall (s : State) (i : nat) (c : Call),
    (List.length (calls s) <= i)%nat ->
    nth_error (calls (fst (op s))) i = Some c ->
    failed w i c = true ->
    err_of (snd (op s)) <> None /\ List.length (calls (fst (op s))) = S i.

(** The three lookups of [CheckMessage] started at time [t] all
    succeed, with these answers. *)
Definition lookups_succeed (w : World) (m : Manager) (tx : string) (t : nat)
           (cid : Cid) (msg : message) (info : lookup) : Prop :=
  let addr := config.LotusHTTPSAddr (cfg m) in
  fvm_EthGetMessageCidByTransactionHash w t tx addr = Ok cid /\
  fvm_ChainGetMessage w (t + 1) cid addr = Ok msg /\
  fvm_StateSearchMsg w (t + 2) cid addr = Ok info.

End Vocabulary.

(* ================================================================== *)
(** ** A concrete library and concrete worlds, for the examples *)

Module Sample.

(** Addresses, hashes, keys and handles are their textual form. *)
#[export] Instance lib : EthLib := {|
  Address := string;
  HexToAddress := fun s => s;
  Address_Hex := fun a => a;
  Hash := string;
  Hash_Hex := fun h => h;
  PrivateKey := string;
  HexToECDSA := fun s => match s with
                         | EmptyString => Err "invalid length, need 256 bits"
                         | _ => Ok s
                         end;
  PublicKey := string;
  ECDSAPublicKey := string;
  Public := fun k => k;
  assert_ecdsa := fun p => Some p;
  PubkeyToAddress := fun p => "0xfrom";
  Signer := Z;
  LatestSignerForChainID := fun id => id;
  Transaction := string;
  Transaction_Hash := fun t => t;
  Client := string;
  Abi := string;
  Subscription := nat;
  Cid := string;
  FilAddress := string;
  FilAddress_String := fun a => a
|}.

Definition m : Manager :=
  {| cfg := {| config.LotusWsAddr := "ws://lotus";
               config.LotusHTTPSAddr := "https://lotus";
               config.TitanContractorAddr := "0xtoken";
               config.PrivateKeyStr := "key" |} |}.

(** A healthy node: every call succeeds; chain id 314; the receipt of any
    message has exit code [exit]. *)
Definition healthy (exit : Z) : World :=
  {| ethclient_Dial := fun _ addr => Ok addr;
     fvm_NewAbi := fun _ token _ => Ok token;
     client_NetworkID := fun _ _ => Ok 314;
     abi_Mint := fun _ _ _ _ _ => Ok "0xminted";
     abi_Transfer := fun _ _ _ _ _ => Ok "0xsent";
     abi_BalanceOf := fun _ _ _ => (Some 7, None);
     abi_WatchTransfer := fun t _ => Ok t;
     fvm_ChainHead := fun _ _ => Ok {| Height := 0 |};
     fvm_EthGetMessageCidByTransactionHash := fun _ tx _ => Ok tx;
     fvm_ChainGetMessage := fun _ _ _ =>
       Ok {| msg_From := "f1from"; msg_To := "f1to"; msg_Value := 5 |};
     fvm_StateSearchMsg := fun _ _ _ =>
       Ok {| lookup_Height := 10;
             Receipt := {| ExitCode := exit; GasUsed := 1 |} |} |}.

(** The node stops accepting subscriptions after the first one, which
    [watchTransactions] opens at time 2. *)
Definition flaky : World :=
  {| ethclient_Dial := ethclient_Dial (healthy 0);
     fvm_NewAbi := fvm_NewAbi (healthy 0);
     client_NetworkID := client_NetworkID (healthy 0);
     abi_Mint := abi_Mint (healthy 0);
     abi_Transfer := abi_Transfer (healthy 0);
     abi_BalanceOf := abi_BalanceOf (healthy 0);
     abi_WatchTransfer := fun t _ =>
       if (t <=? 2)%nat then Ok t else Err "connection refused";
     fvm_ChainHead := fvm_ChainHead (healthy 0);
     fvm_EthGetMessageCidByTransactionHash :=
       fvm_EthGetMessageCidByTransactionHash (healthy 0);
     fvm_ChainGetMessage := fvm_ChainGetMessage (healthy 0);
     fvm_StateSearchMsg := fvm_StateSearchMsg (healthy 0) |}.

(** The node is unreachable: every call fails. *)
Definition down : World :=
  {| ethclient_Dial := fun _ _ => Err "dial tcp: connection refused";
     fvm_NewAbi := fun _ _ _ => Err "no client";
     client_NetworkID := fun _ _ => Err "no client";
     abi_Mint := fun _ _ _ _ _ => Err "no client";
     abi_Transfer := fun _ _ _ _ _ => Err "no client";
     abi_BalanceOf := fun _ _ _ => (None, Some "no client");
     abi_WatchTransfer := fun _ _ => Err "no client";
     fvm_ChainHead := fun _ _ => Err "connection refused";
     fvm_EthGetMessageCidByTransactionHash := fun _ _ _ => Err "connection refused";
     fvm_ChainGetMessage := fun _ _ _ => Err "connection refused";
     fvm_StateSearchMsg := fun _ _ _ => Err "connection refused" |}.

Definition transfer (value : Z) (removed : bool) : AbiTransfer :=
  {| From := "0xalice"; To := "0xservice"; Value := value;
     Raw := {| TxHash := "0xtx1"; BlockNumber := 100; Removed := removed |} |}.

Definition request : FvmTransferReq.t :=
  {| FvmTransferReq.ID := "req-1";
     FvmTransferReq.To := "0xbob";
     FvmTransferReq.Value := "25" |}.

(** An ECS endpoint that accepts every request and answers with a full
    response body; prices are integers here. *)
Definition ecs : aliyun.Ecs Z string :=
  {| aliyun.NewClient := fun c => inl (aliyun.cfg_RegionId c);
     aliyun.CreateInstanceWithOptions := fun _ _ =>
       aliyun.Returns (Some {| aliyun.cb_InstanceId := Some "i-1";
                               aliyun.cb_OrderId := Some "o-1";
                               aliyun.cb_RequestId := Some "r-1";
                               aliyun.cb_TradePrice := Some 3 |});
     aliyun.RunInstancesWithOptions := fun _ _ =>
       aliyun.Returns (Some {| aliyun.rb_InstanceIdSet := Some [Some "i-1"];
                               aliyun.rb_OrderId := Some "o-1";
                               aliyun.rb_RequestId := Some "r-1";
                               aliyun.rb_TradePrice := Some 3 |}) |}.

End Sample.

(** The closed examples below are stated over the sample library. *)
#[local] Existing Instance Sample.lib.

(* ================================================================== *)
(** ** node/transaction: [NewManager] *)

(** The goroutines [NewManager] starts with [go]; they run
    [watchTransactions] and [subscribeEvents] on the new manager, and
    what they return is dropped. *)
Inductive Goroutine : Type :=
| GoWatchTransactions (m : Manager)
| GoSubscribeEvents (m : Manager).

(** [NewManager(pb, getCfg)]: the returned pair and the goroutines
    started.  [getCfg] is called once; its answer is the argument. *)
Definition NewManager (getCfg : result config.BasisCfg)
  : (option Manager * error) * list Goroutine :=
  match getCfg with
  | Err err => ((None, Some err), [])
  | Ok cfg0 =>
      let manager := {| cfg := cfg0 |} in
      ((Some manager, None), [GoWatchTransactions manager; GoSubscribeEvents manager])
  end.

(** What a started goroutine does with the values it receives: the
    watcher reads [sels], the responder reads [us]. *)
Definition run_goroutine {lib : EthLib} (w : World) (g : Goroutine)
           (sels : list Select) (us : list Payload) : M Outcome :=
  match g with
  | GoWatchTransactions m => watchTransactions w m sels
  | GoSubscribeEvents m => subscribeEvents w m us
  end.

(* ================================================================== *)
(** ** Further vocabulary: traces of the two loops, call shapes, amounts *)

Section Traces.

Context {lib : EthLib}.

(** The event the watcher publishes for a raw transfer. *)
Definition transfer_event (tr : AbiTransfer) : EventTopics * Payload :=
  (EventTransferWatch,
   Watch {| FvmTransferWatch.ID := Hash_Hex (TxHash (Raw tr));
            FvmTransferWatch.From := Address_Hex (From tr);
            FvmTransferWatch.To := Address_Hex (To tr);
            FvmTransferWatch.Value := big.Int64 (Value tr) |}).

(** The transfers of a sequence of received values that were not removed,
    in arrival order. *)
Fixpoint kept_transfers (sels : list Select) : list AbiTransfer :=
  match sels with
  | [] => []
  | RecvSink tr :: rest =>
      if Removed (Raw tr) then kept_transfers rest else tr :: kept_transfers rest
  | RecvErr _ :: rest => kept_transfers rest
  end.

(** The number of non-nil errors received from the subscription. *)
Fixpoint stream_errors (sels : list Select) : nat :=
  match sels with
  | [] => 0%nat
  | RecvErr (Some _) :: rest => S (stream_errors rest)
  | _ :: rest => stream_errors rest
  end.

(** The requests at the head of a sequence of bus payloads, up to the
    first payload that is not a request. *)
Fixpoint leading_requests (us : list Payload) : list FvmTransferReq.t :=
  match us with
  | Req tr :: rest => tr :: leading_requests rest
  | _ => []
  end.

(** The kind of a network call. *)
Inductive CallKind : Type :=
| KDial | KNewAbi | KNetworkID | KMint | KTransfer | KBalanceOf
| KWatchTransfer | KChainHead | KEthGetMessageCid | KChainGetMessage
| KStateSearchMsg.

Definition kind (c : Call) : CallKind :=
  match c with
  | CallDial _ => KDial
  | CallNewAbi _ _ => KNewAbi
  | CallNetworkID _ => KNetworkID
  | CallMint _ _ _ _ => KMint
  | CallTransfer _ _ _ _ => KTransfer
  | CallBalanceOf _ _ => KBalanceOf
  | CallWatchTransfer _ => KWatchTransfer
  | CallChainHead _ => KChainHead
  | CallEthGetMessageCidByTransactionHash _ _ => KEthGetMessageCid
  | CallChainGetMessage _ _ => KChainGetMessage
  | CallStateSearchMsg _ _ => KStateSearchMsg
  end.

Definition is_dial (c : Call) : bool :=
  match c with
  | CallDial _ => true
  | _ => false
  end.

(** Calls that change the chain or open a stream. *)
Definition is_submission (c : Call) : bool :=
  match c with
  | CallMint _ _ _ _ | CallTransfer _ _ _ _ | CallWatchTransfer _ => true
  | _ => false
  end.

(** The calls of a complete outbound operation, by kind. *)
Definition outbound_kinds (op : Outbound) : list CallKind :=
  [KDial; KNewAbi; KNetworkID;
   match op with
   | DoMint => KMint
   | DoTransfer => KTransfer
   end].

(** The last call of a log was answered with an error. *)
Definition last_call_failed (w : World) (cs : list Call) : Prop :=
  exists (front : list Call) (c : Call),
    cs = (front ++ [c])%list /\ failed w (List.length front) c = true.

(** The prefixes of the errors of an outbound operation, one per stage. *)
Definition stage_prefixes (op : Outbound) : list string :=
  ["Dial err:"; "NewAbi err:"; "HexToECDSA err:"; "publicKey err:";
   "NetworkID err:"; contract_prefix op].

(** The message of the error the world answers call [c] with at time
    [t], when it answers with an error. *)
Definition error_message (w : World) (t : nat) (c : Call) : option string :=
  let message {A} (r : result A) : option string :=
    match r with
    | Ok _ => None
    | Err msg => Some msg
    end in
  match c with
  | CallDial addr => message (ethclient_Dial w t addr)
  | CallNewAbi token cl => message (fvm_NewAbi w t token cl)
  | CallNetworkID cl => message (client_NetworkID w t cl)
  | CallMint a o to v => message (abi_Mint w t a o to v)
  | CallTransfer a o to v => message (abi_Transfer w t a o to v)
  | CallBalanceOf a account => snd (abi_BalanceOf w t a account)
  | CallWatchTransfer a => message (abi_WatchTransfer w t a)
  | CallChainHead addr => message (fvm_ChainHead w t addr)
  | CallEthGetMessageCidByTransactionHash tx addr =>
      message (fvm_EthGetMessageCidByTransactionHash w t tx addr)
  | CallChainGetMessage c addr => message (fvm_ChainGetMessage w t c addr)
  | CallStateSearchMsg c addr => message (fvm_StateSearchMsg w t c addr)
  end.

(** The prefix [Mint] and [Transfer] put before the message of a failed
    call, by the call. *)
Definition outbound_prefix (c : Call) : string :=
  match c with
  | CallDial _ => "Dial err:"
  | CallNewAbi _ _ => "NewAbi err:"
  | CallNetworkID _ => "NetworkID err:"
  | CallMint _ _ _ _ => "Mint err:"
  | CallTransfer _ _ _ _ => "Transfer err:"
  | _ => EmptyString
  end.

(** The configured private key cannot be used: it does not parse, or
    its public key is not an ECDSA key. *)
Definition key_stage_fails (m : Manager) : Prop :=
  (exists msg, HexToECDSA (config.PrivateKeyStr (cfg m)) = Err msg) \/
  (exists k, HexToECDSA (config.PrivateKeyStr (cfg m)) = Ok k /\
             assert_ecdsa (Public k) = None).

(** None of the calls made from position [from] of a log on was answered
    with an error. *)
Definition no_call_failed (w : World) (from : nat) (cs : list Call) : Prop :=
  forall (i : nat) (c : Call),
    (from <= i)%nat -> nth_error cs i = Some c -> failed w i c = false.

End Traces.

(** The base-10 text of an integer: digits, with a leading minus sign for
    a negative one. *)
Definition decimal (z : Z) : string :=
  DecimalString.NilZero.string_of_int (Z.to_int z).

(** The text has no digit where [SetString] looks for the first one:
    it is empty, or a sign alone, or starts (after the sign) with
    something else. *)
Definition starts_without_digit (s : string) : bool :=
  match s with
  | EmptyString => true
  | String c rest =>
      let body := if (Ascii.eqb c "-" || Ascii.eqb c "+")%bool then rest else s in
      match body with
      | EmptyString => true
      | String d _ => negb (big.is_digit d)
      end
  end.

(** The text is an optional sign followed by one or more digits and
    nothing else. *)
Fixpoint all_digits (s : string) : bool :=
  match s with
  | EmptyString => true
  | String c rest => big.is_digit c && all_digits rest
  end.

Definition is_decimal_text (s : string) : bool :=
  match s with
  | EmptyString => false
  | String c rest =>
      let body := if (Ascii.eqb c "-" || Ascii.eqb c "+")%bool then rest else s in
      match body with
      | EmptyString => false
      | String _ _ => all_digits body
      end
  end.

(** The value of a sequence of decimal digits read after [acc]. *)
Fixpoint horner (d : Decimal.uint) (acc : Z) : Z :=
  match d with
  | Decimal.Nil => acc
  | Decimal.D0 l => horner l (10 * acc)
  | Decimal.D1 l => horner l (10 * acc + 1)
  | Decimal.D2 l => horner l (10 * acc + 2)
  | Decimal.D3 l => horner l (10 * acc + 3)
  | Decimal.D4 l => horner l (10 * acc + 4)
  | Decimal.D5 l => horner l (10 * acc + 5)
  | Decimal.D6 l => horner l (10 * acc + 6)
  | Decimal.D7 l => horner l (10 * acc + 7)
  | Decimal.D8 l => horner l (10 * acc + 8)
  | Decimal.D9 l => horner l (10 * acc + 9)
  end.

(* ================================================================== *)
(** ** lib/aliyun: endpoints that always fail *)

Section Endpoints.

Variables (float32 : Type) (EcsClient : Type).
Variables (StartInstancesResponse DescribeInstanceAttributeResponse
           AuthorizeSecurityGroupResponse DescribeRegionsResponse
           DescribeRecommendInstanceTypeResponse DescribeImagesResponse
           DescribeAvailableResourceResponse RebootInstanceResponse : Type).

(** An endpoint whose clients are created by [new] and whose methods
    all give the same answer. *)
Definition uniform_ecs (new : aliyun.Config -> EcsClient + aliyun.goerror)
           (a : forall R, aliyun.answer R) : aliyun.Ecs float32 EcsClient :=
  {| aliyun.NewClient := new;
     aliyun.CreateInstanceWithOptions := fun _ _ => a _;
     aliyun.RunInstancesWithOptions := fun _ _ => a _ |}.

Definition uniform_sdk (r : forall R, aliyun.reply R)
  : aliyun.Sdk float32 EcsClient StartInstancesResponse
               DescribeInstanceAttributeResponse AuthorizeSecurityGroupResponse
               DescribeRegionsResponse DescribeRecommendInstanceTypeResponse
               DescribeImagesResponse DescribeAvailableResourceResponse
               RebootInstanceResponse :=
  {| aliyun.StartInstancesWithOptions := fun _ _ => r _;
     aliyun.DescribeSecurityGroupsWithOptions := fun _ _ => r _;
     aliyun.DescribeInstanceAttributeWithOptions := fun _ _ => r _;
     aliyun.AllocatePublicIpAddressWithOptions := fun _ _ => r _;
     aliyun.DescribePriceWithOptions := fun _ _ => r _;
     aliyun.AuthorizeSecurityGroupWithOptions := fun _ _ => r _;
     aliyun.DescribeRegionsWithOptions := fun _ _ => r _;
     aliyun.DescribeRecommendInstanceTypeWithOptions := fun _ _ => r _;
     aliyun.CreateSecurityGroupWithOptions := fun _ _ => r _;
     aliyun.DescribeImagesWithOptions := fun _ _ => r _;
     aliyun.DescribeAvailableResourceWithOptions := fun _ _ => r _;
     aliyun.CreateKeyPairWithOptions := fun _ _ => r _;
     aliyun.AttachKeyPairWithOptions := fun _ _ => r _;
     aliyun.RebootInstanceWithOptions := fun _ _ => r _ |}.

(** Every method of the SDK answers every request with the error
    [err], next to whatever result. *)
Definition sdk_answers_with_error
           (sdk : aliyun.Sdk float32 EcsClient StartInstancesResponse
                             DescribeInstanceAttributeResponse
                             AuthorizeSecurityGroupResponse DescribeRegionsResponse
                             DescribeRecommendInstanceTypeResponse
                             DescribeImagesResponse DescribeAvailableResourceResponse
                             RebootInstanceResponse)
           (err : aliyun.goerror) : Prop :=
  (forall c r, exists res,
        aliyun.StartInstancesWithOptions sdk c r = aliyun.Reply res (Some err)) /\
  (forall c r, exists res,
        aliyun.DescribeSecurityGroupsWithOptions sdk c r = aliyun.Reply res (Some err)) /\
  (forall c r, exists res,
        aliyun.DescribeInstanceAttributeWithOptions sdk c r =
        aliyun.Reply res (Some err)) /\
  (forall c r, exists res,
        aliyun.AllocatePublicIpAddressWithOptions sdk c r =
        aliyun.Reply res (Some err)) /\
  (forall c r, exists res,
        aliyun.DescribePriceWithOptions sdk c r = aliyun.Reply res (Some err)) /\
  (forall c r, exists res,
        aliyun.AuthorizeSecurityGroupWithOptions sdk c r = aliyun.Reply res (Some err)) /\
  (forall c r, exists res,
        aliyun.DescribeRegionsWithOptions sdk c r = aliyun.Reply res (Some err)) /\
  (forall c r, exists res,
        aliyun.DescribeRecommendInstanceTypeWithOptions sdk c r =
        aliyun.Reply res (Some err)) /\
  (forall c r, exists res,
        aliyun.CreateSecurityGroupWithOptions sdk c r = aliyun.Reply res (Some err)) /\
  (forall c r, exists res,
        aliyun.DescribeImagesWithOptions sdk c r = aliyun.Reply res (Some err)) /\
  (forall c r, exists res,
        aliyun.DescribeAvailableResourceWithOptions sdk c r =
        aliyun.Reply res (Some err)) /\
  (forall c r, exists res,
        aliyun.CreateKeyPairWithOptions sdk c r = aliyun.Reply res (Some err)) /\
  (forall c r, exists res,
        aliyun.AttachKeyPairWithOptions sdk c r = aliyun.Reply res (Some err)) /\
  (forall c r, exists res,
        aliyun.RebootInstanceWithOptions sdk c r = aliyun.Reply res (Some err)).

(** The two instance-creating methods answer every request with the
    error [err]. *)
Definition ecs_answers_with_error (ecs : aliyun.Ecs float32 EcsClient)
           (err : aliyun.goerror) : Prop :=
  (forall c r, aliyun.CreateInstanceWithOptions ecs c r = aliyun.Fails err) /\
  (forall c r, aliyun.RunInstancesWithOptions ecs c r = aliyun.Fails err).

End Endpoints.

(** Further sample values. *)
Module SampleMore.

(** The event of the transaction the healthy node knows. *)
Definition tx_event : EventTopics * Payload :=
  (EventTransferWatch,
   Watch {| FvmTransferWatch.ID := "0xtx";
            FvmTransferWatch.From := "f1from";
            FvmTransferWatch.To := "f1to";
            FvmTransferWatch.Value := 5 |}).

(** An ECS endpoint that cannot create clients. *)
Definition no_client : aliyun.Ecs Z string :=
  {| aliyun.NewClient := fun _ => inr (aliyun.OtherError "invalid credentials");
     aliyun.CreateInstanceWithOptions := aliyun.CreateInstanceWithOptions Sample.ecs;
     aliyun.RunInstancesWithOptions := aliyun.RunInstancesWithOptions Sample.ecs |}.

(** SDK methods that answer every request; the second security group has
    no id, and so has the second attach result. *)
Definition sdk : aliyun.Sdk Z string unit unit unit unit unit unit unit unit :=
  {| aliyun.StartInstancesWithOptions := fun _ _ => aliyun.Reply (Some tt) None;
     aliyun.DescribeSecurityGroupsWithOptions := fun _ _ =>
       aliyun.Reply (Some [Some (Some "sg-1"); Some None; Some (Some "sg-3")]) None;
     aliyun.DescribeInstanceAttributeWithOptions := fun _ _ =>
       aliyun.Reply (Some tt) None;
     aliyun.AllocatePublicIpAddressWithOptions := fun _ _ =>
       aliyun.Reply (Some (Some "10.0.0.1")) None;
     aliyun.DescribePriceWithOptions := fun _ _ =>
       aliyun.Reply (Some {| aliyun.pi_Currency := Some "CNY";
                             aliyun.pi_OriginalPrice := Some 10;
                             aliyun.pi_TradePrice := Some 9 |}) None;
     aliyun.AuthorizeSecurityGroupWithOptions := fun _ _ => aliyun.Reply (Some tt) None;
     aliyun.DescribeRegionsWithOptions := fun _ _ => aliyun.Reply (Some tt) None;
     aliyun.DescribeRecommendInstanceTypeWithOptions := fun _ _ =>
       aliyun.Reply (Some tt) None;
     aliyun.CreateSecurityGroupWithOptions := fun _ _ =>
       aliyun.Reply (Some (Some "sg-9")) None;
     aliyun.DescribeImagesWithOptions := fun _ _ => aliyun.Reply (Some tt) None;
     aliyun.DescribeAvailableResourceWithOptions := fun _ _ =>
       aliyun.Reply (Some tt) None;
     aliyun.CreateKeyPairWithOptions := fun _ _ =>
       aliyun.Reply (Some {| aliyun.kp_KeyPairId := Some "kp-1";
                             aliyun.kp_KeyPairName := Some "name";
                             aliyun.kp_PrivateKeyBody := Some "pem" |}) None;
     aliyun.AttachKeyPairWithOptions := fun _ _ =>
       aliyun.Reply
         (Some [Some {| aliyun.ar_Code := Some "200";
                        aliyun.ar_InstanceId := Some "i-1";
                        aliyun.ar_Message := Some "ok";
                        aliyun.ar_Success := Some "true" |};
                None]) None;
     aliyun.RebootInstanceWithOptions := fun _ _ => aliyun.Reply (Some tt) None |}.

(** The message and the receipt the healthy node answers with. *)
Definition confirmed_message : message :=
  {| msg_From := "f1from"; msg_To := "f1to"; msg_Value := 5 |}.

Definition confirmed_lookup : lookup :=
  {| lookup_Height := 10; Receipt := {| ExitCode := 0; GasUsed := 1 |} |}.

(** A stand-in for [json.Marshal]. *)
Definition marshal (ids : list string) : string + string :=
  inl (String.concat "," ids).

(** The watcher's state once [watchTransactions] has subscribed. *)
Definition subscribed : State :=
  {| pubs := [];
     calls := [CallDial "ws://lotus"; CallNewAbi "0xtoken" "ws://lotus";
               CallWatchTransfer "0xtoken"] |}.

(** What the watcher receives in the examples: a transfer, a stream
    error, a removed transfer, a nil error, another transfer. *)
Definition received : list Select :=
  [RecvSink (Sample.transfer 5 false); RecvErr (Some "EOF");
   RecvSink (Sample.transfer 6 true); RecvErr None;
   RecvSink (Sample.transfer 7 false)].

(** A node that answers everything but the network id query. *)
Definition no_chain_id : World :=
  {| ethclient_Dial := ethclient_Dial (Sample.healthy 0);
     fvm_NewAbi := fvm_NewAbi (Sample.healthy 0);
     client_NetworkID := fun _ _ => Err "method not found";
     abi_Mint := abi_Mint (Sample.healthy 0);
     abi_Transfer := abi_Transfer (Sample.healthy 0);
     abi_BalanceOf := abi_BalanceOf (Sample.healthy 0);
     abi_WatchTransfer := abi_WatchTransfer (Sample.healthy 0);
     fvm_ChainHead := fvm_ChainHead (Sample.healthy 0);
     fvm_EthGetMessageCidByTransactionHash :=
       fvm_EthGetMessageCidByTransactionHash (Sample.healthy 0);
     fvm_ChainGetMessage := fvm_ChainGetMessage (Sample.healthy 0);
     fvm_StateSearchMsg := fvm_StateSearchMsg (Sample.healthy 0) |}.

(** An endpoint over its quota: every method hands back a response
    together with the error. *)
Definition quota : aliyun.SDKError :=
  {| aliyun.Code := Some "QuotaExceeded"; aliyun.Message := Some "quota exceeded" |}.

Definition over_quota_ecs : aliyun.Ecs Z string :=
  {| aliyun.NewClient := aliyun.NewClient Sample.ecs;
     aliyun.CreateInstanceWithOptions := fun _ _ =>
       aliyun.Fails (aliyun.IsSDKError quota);
     aliyun.RunInstancesWithOptions := fun _ _ =>
       aliyun.Fails (aliyun.IsSDKError quota) |}.

Definition over_quota_sdk : aliyun.Sdk Z string unit unit unit unit unit unit unit unit :=
  let err := Some (aliyun.IsSDKError quota) in
  {| aliyun.StartInstancesWithOptions := fun _ _ => aliyun.Reply (Some tt) err;
     aliyun.DescribeSecurityGroupsWithOptions := fun _ _ =>
       aliyun.Reply (Some [Some (Some "sg-1")]) err;
     aliyun.DescribeInstanceAttributeWithOptions := fun _ _ =>
       aliyun.Reply (Some tt) err;
     aliyun.AllocatePublicIpAddressWithOptions := fun _ _ =>
       aliyun.Reply (Some (Some "10.0.0.1")) err;
     aliyun.DescribePriceWithOptions := fun _ _ =>
       aliyun.Reply (Some {| aliyun.pi_Currency := Some "CNY";
                             aliyun.pi_OriginalPrice := Some 10;
                             aliyun.pi_TradePrice := Some 9 |}) err;
     aliyun.AuthorizeSecurityGroupWithOptions := fun _ _ => aliyun.Reply (Some tt) err;
     aliyun.DescribeRegionsWithOptions := fun _ _ => aliyun.Reply (Some tt) err;
     aliyun.DescribeRecommendInstanceTypeWithOptions := fun _ _ =>
       aliyun.Reply (Some tt) err;
     aliyun.CreateSecurityGroupWithOptions := fun _ _ =>
       aliyun.Reply (Some (Some "sg-9")) err;
     aliyun.DescribeImagesWithOptions := fun _ _ => aliyun.Reply (Some tt) err;
     aliyun.DescribeAvailableResourceWithOptions := fun _ _ =>
       aliyun.Reply (Some tt) err;
     aliyun.CreateKeyPairWithOptions := fun _ _ =>
       aliyun.Reply (Some {| aliyun.kp_KeyPairId := Some "kp-1";
                             aliyun.kp_KeyPairName := Some "name";
                             aliyun.kp_PrivateKeyBody := Some "pem" |}) err;
     aliyun.AttachKeyPairWithOptions := fun _ _ => aliyun.Reply (Some []) err;
     aliyun.RebootInstanceWithOptions := fun _ _ => aliyun.Reply (Some tt) err |}.

End SampleMore.

(* ================================================================== *)
(** * Properties *)

(** Unfolding of the Go-level operations down to state transformers. *)
Ltac go_unfold :=
  unfold execute, Mint, Transfer, GetBalance, CheckMessage, GetHeight,
    watchTransactions, watch_iteration, subscribeEvents_iteration,
    Dial, NewAbi, NetworkID, Abi_Mint, Abi_Transfer, BalanceOf,
    WatchTransfer, ChainHead, EthGetMessageCidByTransactionHash,
    ChainGetMessage, StateSearchMsg, call, Pub, bind, ret in *.

(** Case analysis on the next answer the code inspects. *)
Ltac go_case :=
  match goal with
  | |- context [match ?x with _ => _ end] =>
      lazymatch x with
      | context [match _ with _ => _ end] => fail
      | _ => destruct x eqn:?
      end
  end.

(** Normal form of call logs and of logical times. *)
Ltac go_norm :=
  cbn [calls pubs fst snd] in *;
  repeat rewrite length_app in *;
  cbn [List.length] in *;
  repeat rewrite <- app_assoc in *;
  cbn [app] in *;
  repeat rewrite <- Nat.add_assoc in *;
  cbn [Nat.add] in *.

(** Use the recorded answers of the world. *)
Ltac go_answers :=
  repeat match goal with
    | H1 : ?x = Ok _, H2 : context [?x] |- _ => rewrite H1 in H2
    | H1 : ?x = Err _, H2 : context [?x] |- _ => rewrite H1 in H2
    | H1 : ?x = Ok _ |- context [?x] => rewrite H1
    | H1 : ?x = Err _ |- context [?x] => rewrite H1
    end.

(* ------------------------------------------------------------------ *)
(** ** math/big *)

Lemma Int64_in_range (x : Z) : - 2 ^ 63 <= x < 2 ^ 63 -> big.Int64 x = x.
Proof.
  intros H. unfold big.Int64, big.to_int64.
  destruct (Z.ltb_spec x 0).
  - rewrite (Z.mod_small (Z.abs x)) by lia.
    assert (Hx : x = - 2 ^ 63 \/ - 2 ^ 63 < x) by lia.
    destruct Hx as [-> | Hx]; [reflexivity|].
    rewrite (Z.mod_small (Z.abs x + 2 ^ 63)) by lia.
    rewrite Z.mod_small by lia. lia.
  - rewrite (Z.mod_small (Z.abs x)) by lia.
    rewrite Z.mod_small by lia. lia.
Qed.

Lemma to_int64_bounds (x : Z) : - 2 ^ 63 <= big.to_int64 x < 2 ^ 63.
Proof.
  unfold big.to_int64.
  pose proof (Z.mod_pos_bound (x + 2 ^ 63) (2 ^ 64) ltac:(lia)). lia.
Qed.

(** [Int64] always lands in the [int64] range, whatever the integer. *)
Lemma Int64_bounds (x : Z) : - 2 ^ 63 <= big.Int64 x < 2 ^ 63.
Proof.
  unfold big.Int64. destruct (x <? 0); apply to_int64_bounds.
Qed.

(** Decimal strings are read exactly, beyond any machine width. *)
Example SetString_2_128 :
  big.SetString 0 "340282366920938463463374607431768211456" = (2 ^ 128, true).
Proof. reflexivity. Qed.

Example SetString_zero : big.SetString 0 "0" = (0, true).
Proof. reflexivity. Qed.

(** A string that is not a number leaves the amount at 0, and the flag
    that says so is the one [Mint] and [Transfer] drop. *)
Example SetString_not_a_number : big.SetString 0 "ten" = (0, false).
Proof. reflexivity. Qed.

(* ------------------------------------------------------------------ *)
(** ** The chain watcher *)

Section WatcherFacts.

Context {lib : EthLib}.
Variables (w : World) (m : Manager).

Lemma watch_iteration_removed (myAbi : Abi) (sub : Subscription)
      (tr : AbiTransfer) (s : State) :
  Removed (Raw tr) = true ->
  watch_iteration w m myAbi sub (RecvSink tr) s = (s, Continue sub).
Proof.
  intros H. go_unfold. rewrite H. reflexivity.
Qed.

(** What the watcher publishes for a transfer that was not removed. *)
Lemma watch_iteration_kept (myAbi : Abi) (sub : Subscription)
      (tr : AbiTransfer) (s : State) :
  Removed (Raw tr) = false ->
  watch_iteration w m myAbi sub (RecvSink tr) s =
  ({| pubs := (pubs s ++
               [(EventTransferWatch,
                 Watch {| FvmTransferWatch.ID := Hash_Hex (TxHash (Raw tr));
                          FvmTransferWatch.From := Address_Hex (From tr);
                          FvmTransferWatch.To := Address_Hex (To tr);
                          FvmTransferWatch.Value := big.Int64 (Value tr) |})])%list;
      calls := calls s |}, Continue sub).
Proof.
  intros H. go_unfold. rewrite H. reflexivity.
Qed.

(** ... and the published value is the transferred one as long as it
    fits an [int64]. *)
Lemma watch_iteration_kept_in_range (myAbi : Abi) (sub : Subscription)
      (tr : AbiTransfer) (s : State) :
  Removed (Raw tr) = false ->
  - 2 ^ 63 <= Value tr < 2 ^ 63 ->
  watch_iteration w m myAbi sub (RecvSink tr) s =
  ({| pubs := (pubs s ++
               [(EventTransferWatch,
                 Watch {| FvmTransferWatch.ID := Hash_Hex (TxHash (Raw tr));
                          FvmTransferWatch.From := Address_Hex (From tr);
                          FvmTransferWatch.To := Address_Hex (To tr);
                          FvmTransferWatch.Value := Value tr |})])%list;
      calls := calls s |}, Continue sub).
Proof.
  intros H Hr. rewrite watch_iteration_kept by exact H.
  rewrite Int64_in_range by exact Hr. reflexivity.
Qed.

(** A failed resubscription ends the watcher, whatever is still to come
    on its channels. *)
Lemma watch_loop_resubscribe_fails (myAbi : Abi) (sub : Subscription)
      (e msg : string) (rest : list Select) (s : State) :
  abi_WatchTransfer w (List.length (calls s)) myAbi = Err msg ->
  watch_loop w m myAbi sub (RecvErr (Some e) :: rest) s =
  ({| pubs := pubs s; calls := (calls s ++ [CallWatchTransfer myAbi])%list |},
   Returned (Errorf "Transfer err:" msg)).
Proof.
  intros H. cbn [watch_loop]. go_unfold. rewrite H. reflexivity.
Qed.

(** C1 (as amended): a raw transfer whose [Removed] flag is set is
    skipped by the watcher loop: nothing is published for it, no call
    is made, and the loop goes on with the next value. *)
Theorem watch_loop_skips_removed (myAbi : Abi) (sub : Subscription)
        (tr : AbiTransfer) (rest : list Select) (s : State) :
  Removed (Raw tr) = true ->
  watch_loop w m myAbi sub (RecvSink tr :: rest) s =
  watch_loop w m myAbi sub rest s.
Proof.
  intros H. cbn [watch_loop]. unfold bind at 1.
  rewrite watch_iteration_removed by exact H. reflexivity.
Qed.


End WatcherFacts.

(** C1, counterexample: a removed transfer reaches a running watcher and
    nothing at all is published, on the transfer-watch topic or elsewhere. *)
Lemma removed_transfer_publishes_nothing :
  Removed (Raw (Sample.transfer 5 true)) = true /\
  watchTransactions (Sample.healthy 0) Sample.m
    [RecvSink (Sample.transfer 5 true)] init =
  ({| pubs := [];
      calls := [CallDial "ws://lotus"; CallNewAbi "0xtoken" "ws://lotus";
                CallWatchTransfer "0xtoken"] |}, Blocked).
Proof. split; reflexivity. Qed.

Lemma watch_loop_skips_removed_witness :
  Removed (Raw (Sample.transfer 5 true)) = true /\
  watch_loop (Sample.healthy 0) Sample.m "0xtoken" 2%nat
    [RecvSink (Sample.transfer 5 true); RecvSink (Sample.transfer 6 false)] init =
  watch_loop (Sample.healthy 0) Sample.m "0xtoken" 2%nat
    [RecvSink (Sample.transfer 6 false)] init.
Proof.
  split; [reflexivity|].
  apply (watch_loop_skips_removed (lib := Sample.lib)). reflexivity.
Defined.



(** C4, at the failing input: a transfer of 2^64 + 1 units is published
    on the transfer-watch topic with value 1, the low 64 bits of the
    amount. *)
Lemma watch_value_keeps_low_64_bits :
  snd (watchTransactions (Sample.healthy 0) Sample.m
         [RecvSink (Sample.transfer (2 ^ 64 + 1) false)] init) = Blocked /\
  pubs (fst (watchTransactions (Sample.healthy 0) Sample.m
               [RecvSink (Sample.transfer (2 ^ 64 + 1) false)] init)) =
  [(EventTransferWatch,
    Watch {| FvmTransferWatch.ID := "0xtx1";
             FvmTransferWatch.From := "0xalice";
             FvmTransferWatch.To := "0xservice";
             FvmTransferWatch.Value := 1 |})].
Proof. split; reflexivity. Qed.

(** C7, at the failing input: a transfer of 2^63 units that was not
    removed is published with a negative value, not with the value of the
    raw transfer. *)
Lemma watch_value_differs_at_2_63 :
  let tr := Sample.transfer (2 ^ 63) false in
  Removed (Raw tr) = false /\
  exists e,
    pubs (fst (watchTransactions (Sample.healthy 0) Sample.m [RecvSink tr] init)) =
    [(EventTransferWatch, Watch e)] /\
    FvmTransferWatch.Value e = - 2 ^ 63 /\
    FvmTransferWatch.Value e <> Value tr.
Proof.
  cbv zeta. split; [reflexivity|].
  eexists. split; [reflexivity|]. split; [reflexivity|]. discriminate.
Qed.

(* ------------------------------------------------------------------ *)
(** ** The outbound executor *)

Section OutboundFacts.

Context {lib : EthLib}.
Variables (w : World) (m : Manager).

(** Neither operation publishes on the bus. *)
Lemma execute_pubs (op : Outbound) (toAddr valueStr : string) (s : State) :
  pubs (fst (execute w op m toAddr valueStr s)) = pubs s.
Proof.
  destruct op; go_unfold; repeat go_case; reflexivity.
Qed.

(** A failed operation returns the empty string as its hash. *)
Lemma execute_error_hash (op : Outbound) (toAddr valueStr : string) (s : State)
      (h e : string) :
  snd (execute w op m toAddr valueStr s) = (h, Some e) -> h = EmptyString.
Proof.
  destruct op; go_unfold; repeat go_case; cbn [snd]; congruence.
Qed.

(** C3 (as amended): the amount is not validated.  With the amount
    string "0", once dialing, the contract binding, the key and the
    network id are obtained, the contract's mint (or transfer) is called
    with amount 0, and the operation succeeds or fails as that call
    does. *)
Theorem zero_amount_reaches_contract
        (op : Outbound) (toAddr : string) (s : State)
        (client : Client) (myAbi : Abi) (privateKey : PrivateKey)
        (publicKeyECDSA : ECDSAPublicKey) (chainID : big.Int) :
  let t := List.length (calls s) in
  let addr := config.LotusHTTPSAddr (cfg m) in
  let tokenAddress := HexToAddress (config.TitanContractorAddr (cfg m)) in
  let opts := {| opts_Signer := SignTx (LatestSignerForChainID chainID) privateKey;
                 opts_From := PubkeyToAddress publicKeyECDSA |} in
  ethclient_Dial w t addr = Ok client ->
  fvm_NewAbi w (t + 1) tokenAddress client = Ok myAbi ->
  HexToECDSA (config.PrivateKeyStr (cfg m)) = Ok privateKey ->
  assert_ecdsa (Public privateKey) = Some publicKeyECDSA ->
  client_NetworkID w (t + 2) client = Ok chainID ->
  execute w op m toAddr "0" s =
  ({| pubs := pubs s;
      calls := (calls s ++
                [CallDial addr; CallNewAbi tokenAddress client; CallNetworkID client;
                 contract_call op myAbi opts (HexToAddress toAddr) 0])%list |},
   match contract_answer w op (t + 3) myAbi opts (HexToAddress toAddr) 0 with
   | Ok tr => (Hash_Hex (Transaction_Hash tr), None)
   | Err e => (EmptyString, Errorf (contract_prefix op) e)
   end).
Proof.
  intros t addr tokenAddress opts HD HA HK HP HN. subst t addr tokenAddress opts.
  destruct op; go_unfold; go_norm; cbn [contract_answer contract_call contract_prefix].
  - rewrite HD. go_norm. rewrite HA, HK, HP. go_norm. rewrite HN. go_norm.
    change (fst (big.SetString 0 "0")) with 0.
    destruct (abi_Mint _ _ _ _ _ _); go_norm; reflexivity.
  - rewrite HD, HK, HP. go_norm. rewrite HA. go_norm. rewrite HN. go_norm.
    change (fst (big.SetString 0 "0")) with 0.
    destruct (abi_Transfer _ _ _ _ _ _); go_norm; reflexivity.
Qed.

(** C8: a successful mint or transfer made exactly four network calls:
    dial, contract binding, the network id query on the dialed client,
    and the contract call.  The transaction options of the contract call
    sign with the signer built from the id that query returned, and the
    returned string is the hex form of the hash of the transaction the
    contract call handed back.  No receipt or message lookup is made. *)
Theorem outbound_success_signs_with_network_id
        (op : Outbound) (toAddr valueStr : string) (s : State) (h : string) :
  snd (execute w op m toAddr valueStr s) = (h, None) ->
  exists (client : Client) (myAbi : Abi) (privateKey : PrivateKey)
         (from : Address) (chainID : big.Int) (tr : Transaction),
    let t := List.length (calls s) in
    let addr := config.LotusHTTPSAddr (cfg m) in
    let tokenAddress := HexToAddress (config.TitanContractorAddr (cfg m)) in
    let amount := fst (big.SetString 0 valueStr) in
    let opts := {| opts_Signer := SignTx (LatestSignerForChainID chainID) privateKey;
                   opts_From := from |} in
    fst (execute w op m toAddr valueStr s) =
    {| pubs := pubs s;
       calls := (calls s ++
                 [CallDial addr; CallNewAbi tokenAddress client; CallNetworkID client;
                  contract_call op myAbi opts (HexToAddress toAddr) amount])%list |} /\
    ethclient_Dial w t addr = Ok client /\
    client_NetworkID w (t + 2) client = Ok chainID /\
    contract_answer w op (t + 3) myAbi opts (HexToAddress toAddr) amount = Ok tr /\
    h = Hash_Hex (Transaction_Hash tr).
Proof.
  destruct op; go_unfold; repeat go_case; go_norm; intros Hr;
    try discriminate Hr; injection Hr as <-;
    do 6 eexists; cbv zeta; cbn [contract_answer contract_call];
    repeat split; eauto.
Qed.

End OutboundFacts.

(** C3, counterexample: a mint and a transfer of "0" against a healthy
    node both call the contract with amount 0 and return its transaction
    hash without error. *)
Lemma zero_amount_is_submitted :
  Mint (Sample.healthy 0) Sample.m "0xbob" "0" init =
  ({| pubs := [];
      calls := [CallDial "https://lotus"; CallNewAbi "0xtoken" "https://lotus";
                CallNetworkID "https://lotus";
                CallMint "0xtoken"
                         {| opts_Signer := SignTx 314 "key"; opts_From := "0xfrom" |}
                         "0xbob" 0] |},
   ("0xminted", None)) /\
  Transfer (Sample.healthy 0) Sample.m "0xbob" "0" init =
  ({| pubs := [];
      calls := [CallDial "https://lotus"; CallNewAbi "0xtoken" "https://lotus";
                CallNetworkID "https://lotus";
                CallTransfer "0xtoken"
                             {| opts_Signer := SignTx 314 "key"; opts_From := "0xfrom" |}
                             "0xbob" 0] |},
   ("0xsent", None)).
Proof. split; reflexivity. Qed.

Lemma zero_amount_reaches_contract_witness :
  snd (execute (Sample.healthy 0) DoTransfer Sample.m "0xbob" "0" init) =
  ("0xsent", None).
Proof.
  rewrite (zero_amount_reaches_contract (lib := Sample.lib) (Sample.healthy 0)
             Sample.m DoTransfer "0xbob" init
             (client := "https://lotus") (myAbi := "0xtoken")
             (privateKey := "key") (publicKeyECDSA := "key") (chainID := 314));
    reflexivity.
Defined.

Lemma outbound_success_witness :
  snd (execute (Sample.healthy 0) DoMint Sample.m "0xbob" "25" init) =
  ("0xminted", None) /\
  exists client myAbi privateKey from chainID tr,
    fst (execute (Sample.healthy 0) DoMint Sample.m "0xbob" "25" init) =
    {| pubs := [];
       calls := [CallDial "https://lotus"; CallNewAbi "0xtoken" client;
                 CallNetworkID client;
                 CallMint myAbi
                          {| opts_Signer := SignTx chainID privateKey;
                             opts_From := from |} "0xbob" 25] |} /\
    ethclient_Dial (Sample.healthy 0) 0 "https://lotus" = Ok client /\
    client_NetworkID (Sample.healthy 0) 2 client = Ok chainID /\
    abi_Mint (Sample.healthy 0) 3 myAbi
             {| opts_Signer := SignTx chainID privateKey; opts_From := from |}
             "0xbob" 25 = Ok tr /\
    "0xminted" = tr.
Proof.
  split; [reflexivity|].
  exact (outbound_success_signs_with_network_id (lib := Sample.lib)
           (Sample.healthy 0) Sample.m DoMint "0xbob" "25" init eq_refl).
Defined.

(* ------------------------------------------------------------------ *)
(** ** Failure propagation of the ledger operations *)

Section Propagation.

Context {lib : EthLib}.
Variables (w : World) (m : Manager).

(** Locate the failing call [c] at position [i] of a call log of the
    form [calls s ++ [c1; ...; cn]]. *)
Ltac pick_call Hnth Hfail s i :=
  rewrite nth_error_app2 in Hnth by lia;
  let k := fresh "k" in
  let Hk := fresh "Hk" in
  remember (i - List.length (calls s))%nat as k eqn:Hk;
  assert (i = (List.length (calls s) + k)%nat) by lia; subst i; clear Hk;
  repeat (destruct k as [|k];
          [ cbn in Hnth; try discriminate Hnth;
            try (injection Hnth as <-; cbn [failed] in Hfail)
          | cbn [nth_error] in Hnth; try discriminate Hnth ]);
  try rewrite Nat.add_0_r in *.

Ltac propagation s i Hnth Hfail :=
  go_unfold; repeat go_case; go_norm; pick_call Hnth Hfail s i;
  go_answers; cbn in *; try discriminate;
  (split; [discriminate | lia]).

Lemma execute_propagates (op : Outbound) (toAddr valueStr : string) :
  propagates w snd (execute w op m toAddr valueStr).
Proof.
  intros s i c Hle Hnth Hfail. destruct op; propagation s i Hnth Hfail.
Qed.

Lemma CheckMessage_propagates (tx : string) :
  propagates w (fun e => e) (CheckMessage w m tx).
Proof.
  intros s i c Hle Hnth Hfail. propagation s i Hnth Hfail.
Qed.

Lemma GetBalance_propagates (addr : string) :
  propagates w snd (GetBalance w m addr).
Proof.
  intros s i c Hle Hnth Hfail.
  go_unfold; repeat go_case; go_norm; pick_call Hnth Hfail s i;
    go_answers; cbn in *; try discriminate;
    try (split; [discriminate | lia]).
  split; [|lia].
  destruct (snd (abi_BalanceOf w _ _ _)); discriminate.
Qed.

(** What [GetHeight] does with a failed chain-head lookup. *)
Lemma GetHeight_failure (s : State) (e : string) :
  fvm_ChainHead w (List.length (calls s)) (config.LotusHTTPSAddr (cfg m)) = Err e ->
  GetHeight w m s =
  ({| pubs := pubs s;
      calls := (calls s ++ [CallChainHead (config.LotusHTTPSAddr (cfg m))])%list |}, 0).
Proof.
  intros H. go_unfold. rewrite H. reflexivity.
Qed.

(** C5 (as amended): the balance query, the message and receipt lookup
    and the two submitting operations hand every failed network call to
    their caller as a non-nil error, and make no further call after the
    failed one.  [GetHeight] has no error result; a failed chain-head
    lookup makes it return 0 after that single call. *)
Theorem ledger_operations_propagate_failures :
  (forall addr, propagates w snd (GetBalance w m addr)) /\
  (forall tx, propagates w (fun e => e) (CheckMessage w m tx)) /\
  (forall op toAddr valueStr, propagates w snd (execute w op m toAddr valueStr)) /\
  (forall s e,
      fvm_ChainHead w (List.length (calls s)) (config.LotusHTTPSAddr (cfg m)) = Err e ->
      GetHeight w m s =
      ({| pubs := pubs s;
          calls := (calls s ++ [CallChainHead (config.LotusHTTPSAddr (cfg m))])%list |},
       0)).
Proof.
  split; [|split; [|split]].
  - apply GetBalance_propagates.
  - apply CheckMessage_propagates.
  - apply execute_propagates.
  - intros s e. apply GetHeight_failure.
Qed.

End Propagation.

(** C5, counterexample: with the node unreachable the chain-head lookup
    fails and [GetHeight] returns 0, which is also what it returns for a
    reachable node whose head is at height 0. *)
Lemma GetHeight_hides_failure :
  fvm_ChainHead Sample.down 0 "https://lotus" = Err "connection refused" /\
  snd (GetHeight Sample.down Sample.m init) = 0 /\
  fvm_ChainHead (Sample.healthy 0) 0 "https://lotus" = Ok {| Height := 0 |} /\
  snd (GetHeight (Sample.healthy 0) Sample.m init) = 0.
Proof. repeat split. Qed.

Lemma ledger_operations_propagate_failures_witness :
  failed Sample.down 0 (CallDial "https://lotus") = true /\
  snd (snd (Mint Sample.down Sample.m "0xbob" "25" init)) <> None /\
  List.length (calls (fst (Mint Sample.down Sample.m "0xbob" "25" init))) = 1%nat.
Proof.
  split; [reflexivity|].
  destruct (ledger_operations_propagate_failures (lib := Sample.lib)
              Sample.down Sample.m) as (_ & _ & H & _).
  apply (H DoMint "0xbob" "25" init 0%nat (CallDial "https://lotus"));
    [cbn; lia | reflexivity | reflexivity].
Defined.

(* ------------------------------------------------------------------ *)
(** ** The transfer-request responder *)

Section ResponderFacts.

Context {lib : EthLib}.
Variables (w : World) (m : Manager).

(** One iteration on a request, as an equation. *)
Lemma subscribeEvents_iteration_Req (tr : FvmTransferReq.t) (s : State) :
  subscribeEvents_iteration w m (Req tr) s =
  (let r := Mint w m (FvmTransferReq.To tr) (FvmTransferReq.Value tr) s in
   {| pubs := (pubs s ++
               [(EventTransferRep,
                 Rep {| FvmTransferRep.ID := FvmTransferReq.ID tr;
                        FvmTransferRep.TxHash := fst (snd r);
                        FvmTransferRep.Msg := match snd (snd r) with
                                              | Some e => e
                                              | None => EmptyString
                                              end |})])%list;
      calls := calls (fst r) |},
   Some tt).
Proof.
  pose proof (execute_pubs w m DoMint (FvmTransferReq.To tr)
                           (FvmTransferReq.Value tr) s) as Hp.
  cbn [execute] in Hp.
  unfold subscribeEvents_iteration, bind, Pub, ret. cbv zeta.
  destruct (Mint w m (FvmTransferReq.To tr) (FvmTransferReq.Value tr) s)
    as [s1 [hash err]].
  cbn [fst snd] in *. rewrite Hp. reflexivity.
Qed.

(** Any other payload stops the goroutine: the type assertion panics
    before anything is called or published. *)
Lemma subscribeEvents_panics_on_other_payload (u : Payload) (s : State) :
  (forall tr, u <> Req tr) ->
  subscribeEvents_iteration w m u s = (s, None).
Proof.
  intros H. destruct u; try reflexivity. destruct (H e eq_refl).
Qed.

(** Over a whole sequence of requests: the goroutine keeps waiting for
    the next one, and has published one response per request, in order. *)
Lemma subscribeEvents_answers_all (reqs : list FvmTransferReq.t) (s : State) :
  snd (subscribeEvents w m (map Req reqs) s) = Blocked /\
  exists reps : list FvmTransferRep.t,
    pubs (fst (subscribeEvents w m (map Req reqs) s)) =
    (pubs s ++ map (fun rep => (EventTransferRep, Rep rep)) reps)%list /\
    map FvmTransferRep.ID reps = map FvmTransferReq.ID reqs.
Proof.
  revert s. induction reqs as [|tr reqs IH]; intros s.
  - split; [reflexivity|]. exists []. cbn. rewrite app_nil_r. split; reflexivity.
  - cbn [map subscribeEvents]. unfold bind.
    rewrite subscribeEvents_iteration_Req. cbv zeta.
    match goal with
    | |- context [subscribeEvents w m (map Req reqs) ?s1] =>
        destruct (IH s1) as (Hb & reps & Hp & Hids)
    end.
    split; [exact Hb|].
    eexists (_ :: reps). rewrite Hp. cbn [pubs map].
    rewrite <- app_assoc. cbn [app]. split; [reflexivity|].
    cbn. congruence.
Qed.

(** C6: [subscribeEvents] handles a transfer request it reads from the
    bus within that turn of its loop: it runs [Mint] on the request's
    address and amount (all of its network calls, and no others, are made
    before the next payload is read), then publishes exactly one event,
    on the response topic: a response with the request's id, carrying
    the hash [Mint] returned and an empty message when [Mint] succeeded,
    and an empty hash and the error's message when it failed; and it
    goes on with the next payload.  So over any sequence of requests it
    is still waiting at the end, having published one response per
    request, in order, with the ids of the requests. *)
Theorem subscribeEvents_answers_each_request :
  (forall (tr : FvmTransferReq.t) (rest : list Payload) (s : State),
      exists rep : FvmTransferRep.t,
        subscribeEvents w m (Req tr :: rest) s =
        subscribeEvents w m rest
          {| pubs := (pubs s ++ [(EventTransferRep, Rep rep)])%list;
             calls := calls (fst (Mint w m (FvmTransferReq.To tr)
                                       (FvmTransferReq.Value tr) s)) |} /\
        subscribeEvents_iteration w m (Req tr) s =
        ({| pubs := (pubs s ++ [(EventTransferRep, Rep rep)])%list;
            calls := calls (fst (Mint w m (FvmTransferReq.To tr)
                                      (FvmTransferReq.Value tr) s)) |},
         Some tt) /\
        FvmTransferRep.ID rep = FvmTransferReq.ID tr /\
        match snd (Mint w m (FvmTransferReq.To tr) (FvmTransferReq.Value tr) s) with
        | (hash, None) =>
            FvmTransferRep.TxHash rep = hash /\ FvmTransferRep.Msg rep = EmptyString
        | (_, Some e) =>
            FvmTransferRep.TxHash rep = EmptyString /\ FvmTransferRep.Msg rep = e
        end) /\
  (forall (reqs : list FvmTransferReq.t) (s : State),
      snd (subscribeEvents w m (map Req reqs) s) = Blocked /\
      exists reps : list FvmTransferRep.t,
        pubs (fst (subscribeEvents w m (map Req reqs) s)) =
        (pubs s ++ map (fun rep => (EventTransferRep, Rep rep)) reps)%list /\
        map FvmTransferRep.ID reps = map FvmTransferReq.ID reqs).
Proof.
  split.
  - intros tr rest s.
    pose proof (execute_error_hash w m DoMint (FvmTransferReq.To tr)
                                   (FvmTransferReq.Value tr) s) as He.
    cbn [execute] in He.
    cbn [subscribeEvents]. unfold bind at 1.
    rewrite subscribeEvents_iteration_Req. cbv zeta.
    destruct (Mint w m (FvmTransferReq.To tr) (FvmTransferReq.Value tr) s)
      as [s1 [hash err]].
    cbn [fst snd] in *.
    eexists. split; [reflexivity|]. split; [reflexivity|]. cbn.
    split; [reflexivity|].
    destruct err as [e|]; [|split; reflexivity].
    split; [apply (He hash e); reflexivity | reflexivity].
  - apply subscribeEvents_answers_all.
Qed.

End ResponderFacts.

(* ------------------------------------------------------------------ *)
(** ** [CheckMessage] *)

Lemma app_one_neq {A} (l : list A) (x : A) : l <> (l ++ [x])%list.
Proof.
  intros H. apply (f_equal (@List.length A)) in H.
  rewrite length_app in H. cbn in H. lia.
Qed.

Section CheckMessageFacts.

Context {lib : EthLib}.
Variables (w : World) (m : Manager).

(** C10: [CheckMessage] publishes an event (one, on the transfer-watch
    topic) exactly when its three lookups succeed and the receipt's exit
    code is 0, and otherwise leaves the bus as it was.  When the lookups
    succeed it returns nil whatever the exit code is; with a nonzero
    exit code nothing is published and nil is returned all the same. *)
Theorem CheckMessage_publishes_iff_exit_code_zero (tx : string) (s : State) :
  let t := List.length (calls s) in
  let s' := fst (CheckMessage w m tx s) in
  let r := snd (CheckMessage w m tx s) in
  ((exists ev, pubs s' = (pubs s ++ [(EventTransferWatch, Watch ev)])%list) <->
   (exists cid msg info,
       lookups_succeed w m tx t cid msg info /\ ExitCode (Receipt info) = 0)) /\
  ((forall ev, pubs s' <> (pubs s ++ [(EventTransferWatch, Watch ev)])%list) ->
   pubs s' = pubs s) /\
  (forall cid msg info,
      lookups_succeed w m tx t cid msg info ->
      r = None /\ (ExitCode (Receipt info) <> 0 -> pubs s' = pubs s)).
Proof.
  cbv zeta. unfold lookups_succeed. go_unfold.
  assert (Hsame : forall ev : FvmTransferWatch.t,
             pubs s = (pubs s ++ [(EventTransferWatch, Watch ev)])%list -> False).
  { intros ev Hev. eapply app_one_neq. exact Hev. }
  destruct (fvm_EthGetMessageCidByTransactionHash w _ tx _)
    as [cid|e] eqn:E1; go_norm.
  2: { split; [split|split].
       - intros [ev Hev]. destruct (Hsame ev Hev).
       - intros (c & ms & inf & (H1 & H2 & H3) & _). congruence.
       - reflexivity.
       - intros c ms inf (H1 & H2 & H3). congruence. }
  destruct (fvm_ChainGetMessage w _ cid _) as [msg|e] eqn:E2; go_norm.
  2: { split; [split|split].
       - intros [ev Hev]. destruct (Hsame ev Hev).
       - intros (c & ms & inf & (H1 & H2 & H3) & _). congruence.
       - reflexivity.
       - intros c ms inf (H1 & H2 & H3). congruence. }
  destruct (fvm_StateSearchMsg w _ cid _) as [info|e] eqn:E3; go_norm.
  2: { split; [split|split].
       - intros [ev Hev]. destruct (Hsame ev Hev).
       - intros (c & ms & inf & (H1 & H2 & H3) & _). congruence.
       - reflexivity.
       - intros c ms inf (H1 & H2 & H3). congruence. }
  destruct (ExitCode (Receipt info) =? 0) eqn:Ez; go_norm.
  - apply Z.eqb_eq in Ez. split; [split|split].
    + intros _. exists cid, msg, info. auto.
    + intros _. eexists. reflexivity.
    + intros H. exfalso. eapply H. reflexivity.
    + intros c ms inf (H1 & H2 & H3). split; [reflexivity|].
      intros Hnz. assert (inf = info) by congruence. subst inf. contradiction.
  - apply Z.eqb_neq in Ez. split; [split|split].
    + intros [ev Hev]. destruct (Hsame ev Hev).
    + intros (c & ms & inf & (H1 & H2 & H3) & Hz).
      assert (inf = info) by congruence. subst inf. contradiction.
    + reflexivity.
    + intros c ms inf (H1 & H2 & H3). split; reflexivity.
Qed.

End CheckMessageFacts.

Lemma CheckMessage_failed_message_witness :
  lookups_succeed (Sample.healthy 1) Sample.m "0xtx" 0 "0xtx"
    {| msg_From := "f1from"; msg_To := "f1to"; msg_Value := 5 |}
    {| lookup_Height := 10; Receipt := {| ExitCode := 1; GasUsed := 1 |} |} /\
  snd (CheckMessage (Sample.healthy 1) Sample.m "0xtx" init) = None /\
  pubs (fst (CheckMessage (Sample.healthy 1) Sample.m "0xtx" init)) = [].
Proof.
  assert (H : lookups_succeed (Sample.healthy 1) Sample.m "0xtx" 0 "0xtx"
                {| msg_From := "f1from"; msg_To := "f1to"; msg_Value := 5 |}
                {| lookup_Height := 10;
                   Receipt := {| ExitCode := 1; GasUsed := 1 |} |}).
  { repeat split. }
  split; [exact H|].
  destruct (CheckMessage_publishes_iff_exit_code_zero (lib := Sample.lib)
              (Sample.healthy 1) Sample.m "0xtx" init) as (_ & _ & Hr).
  destruct (Hr _ _ _ H) as [Hnil Hpub].
  split; [exact Hnil|]. apply Hpub. discriminate.
Defined.

(** The same message with exit code 0: an event is published, and the
    returned value is the same nil. *)
Example CheckMessage_successful_message :
  CheckMessage (Sample.healthy 0) Sample.m "0xtx" init =
  ({| pubs := [(EventTransferWatch,
                Watch {| FvmTransferWatch.ID := "0xtx";
                         FvmTransferWatch.From := "f1from";
                         FvmTransferWatch.To := "f1to";
                         FvmTransferWatch.Value := 5 |})];
      calls := [CallEthGetMessageCidByTransactionHash "0xtx" "https://lotus";
                CallChainGetMessage "0xtx" "https://lotus";
                CallStateSearchMsg "0xtx" "https://lotus"] |}, None).
Proof. reflexivity. Qed.

(* ------------------------------------------------------------------ *)
(** ** lib/aliyun: the dry-run flag *)

Section DryRun.

Variables (float32 : Type) (EcsClient : Type).
Variable ecs : aliyun.Ecs float32 EcsClient.

(** [RunInstances] reaches the SDK at most once, and only after
    [newClient] succeeded. *)
Lemma RunInstances_submits_once
      (regionID keyID keySecret instanceType imageID password securityGroupID
         periodUnit : string) (period : Z) :
  List.length (fst (aliyun.RunInstances ecs regionID keyID keySecret instanceType
                      imageID password securityGroupID periodUnit period)) =
  match aliyun.newClient ecs regionID keyID keySecret with
  | inl _ => 1%nat
  | inr _ => 0%nat
  end.
Proof.
  unfold aliyun.RunInstances.
  destruct (aliyun.newClient ecs regionID keyID keySecret); reflexivity.
Qed.

(** C9: [RunInstances] builds its request with the dry-run flag set,
    whatever its arguments: once [newClient] has given it a client it
    hands the SDK exactly one request, and that request has [DryRun]
    true; [CreateInstance], in the same place, hands the SDK exactly one
    request whose [DryRun] is the caller's [dryRun] argument.  Without a
    client neither submits anything, so every request [RunInstances]
    ever submits is a dry run. *)
Theorem RunInstances_always_dry_run
        (regionID keyID keySecret instanceType imageID password securityGroupID
           periodUnit : string) (period : Z) (dryRun : bool) :
  (forallb aliyun.dry_run
           (fst (aliyun.RunInstances ecs regionID keyID keySecret instanceType
                   imageID password securityGroupID periodUnit period)) = true /\
   forallb (fun req => Bool.eqb (aliyun.dry_run req) dryRun)
           (fst (aliyun.CreateInstance ecs regionID keyID keySecret instanceType
                   imageID securityGroupID periodUnit period dryRun)) = true) /\
  (forall client : EcsClient,
      aliyun.newClient ecs regionID keyID keySecret = inl client ->
      exists (run : aliyun.RunInstancesRequest)
             (create : aliyun.CreateInstanceRequest),
        aliyun.RunInstances ecs regionID keyID keySecret instanceType
                            imageID password securityGroupID periodUnit period =
        ([aliyun.SubmitRunInstances run],
         aliyun.finish
           (aliyun.tryErr (aliyun.RunInstancesWithOptions ecs client run)
                          (@aliyun.run_out float32))) /\
        aliyun.ri_DryRun run = true /\
        aliyun.CreateInstance ecs regionID keyID keySecret instanceType
                              imageID securityGroupID periodUnit period dryRun =
        ([aliyun.SubmitCreateInstance create],
         aliyun.finish
           (aliyun.tryErr (aliyun.CreateInstanceWithOptions ecs client create)
                          (@aliyun.create_out float32))) /\
        aliyun.ci_DryRun create = dryRun).
Proof.
  split.
  - unfold aliyun.RunInstances, aliyun.CreateInstance.
    destruct (aliyun.newClient ecs regionID keyID keySecret); cbn.
    + rewrite Bool.eqb_reflx. split; reflexivity.
    + split; reflexivity.
  - intros client Hc. unfold aliyun.RunInstances, aliyun.CreateInstance.
    rewrite Hc. eexists _, _.
    split; [reflexivity|]. split; [reflexivity|].
    split; [reflexivity|]. reflexivity.
Qed.

End DryRun.

Lemma RunInstances_always_dry_run_witness :
  aliyun.newClient Sample.ecs "cn-hangzhou" "id" "secret" = inl "cn-hangzhou" /\
  exists (run : aliyun.RunInstancesRequest) (create : aliyun.CreateInstanceRequest),
    fst (aliyun.RunInstances Sample.ecs "cn-hangzhou" "id" "secret" "ecs.t5"
           "ubuntu" "pw" "sg-1" "Month" 1) = [aliyun.SubmitRunInstances run] /\
    aliyun.ri_DryRun run = true /\
    fst (aliyun.CreateInstance Sample.ecs "cn-hangzhou" "id" "secret" "ecs.t5"
           "ubuntu" "sg-1" "Month" 1 false) = [aliyun.SubmitCreateInstance create] /\
    aliyun.ci_DryRun create = false.
Proof.
  split; [reflexivity|].
  destruct (proj2 (@RunInstances_always_dry_run Z string Sample.ecs
                     "cn-hangzhou" "id" "secret" "ecs.t5" "ubuntu" "pw" "sg-1"
                     "Month" 1 false) "cn-hangzhou" eq_refl)
    as (run & create & Hr & Hrd & Hc & Hcd).
  exists run, create. rewrite Hr, Hc. repeat split; assumption.
Defined.

(** Against an endpoint that accepts everything, the one request
    [RunInstances] submits is a dry run, and [CreateInstance] called with
    [dryRun = false] submits a real one. *)
Example RunInstances_dry_run_example :
  map aliyun.dry_run
      (fst (aliyun.RunInstances Sample.ecs "cn-hangzhou" "id" "secret" "ecs.t5"
              "ubuntu" "pw" "sg-1" "Month" 1)) = [true] /\
  map aliyun.dry_run
      (fst (aliyun.CreateInstance Sample.ecs "cn-hangzhou" "id" "secret" "ecs.t5"
              "ubuntu" "sg-1" "Month" 1 false)) = [false].
Proof. split; reflexivity. Qed.

(** A response without instance ids makes the recovered closure of
    [RunInstances] report the index panic as an error, with no result. *)
Example run_out_without_instance_ids :
  aliyun.finish
    (aliyun.tryErr
       (aliyun.Returns
          (Some {| aliyun.rb_InstanceIdSet := Some [];
                   aliyun.rb_OrderId := Some "o-1";
                   aliyun.rb_RequestId := Some "r-1";
                   aliyun.rb_TradePrice := Some 3 |}))
       (@aliyun.run_out Z)) =
  (None, Some {| aliyun.Code := None;
                 aliyun.Message := Some aliyun.index_out_of_range_0 |}).
Proof. reflexivity. Qed.

(* ================================================================== *)
(** * Further properties *)

(* ------------------------------------------------------------------ *)
(** ** Amount texts and [SetString] *)

Lemma scan_digits_uint (d : Decimal.uint) : forall (acc : Z) (count : nat),
  big.scan_digits (DecimalString.NilEmpty.string_of_uint d) acc count =
  (horner d acc, (count + Decimal.nb_digits d)%nat, EmptyString).
Proof.
  induction d; intros acc count;
    cbn [DecimalString.NilEmpty.string_of_uint big.scan_digits horner
         Decimal.nb_digits].
  1: rewrite Nat.add_0_r; reflexivity.
  all: change (big.is_digit _) with true; cbv iota; rewrite IHd.
  all: rewrite Nat.add_succ_r; cbn [Nat.add].
  all: match goal with
       | |- context [big.digit_value ?c] =>
           let v := eval vm_compute in (big.digit_value c) in
           change (big.digit_value c) with v
       end.
  all: rewrite ?Z.add_0_r; reflexivity.
Qed.

Lemma horner_pos (d : Decimal.uint) : forall acc : positive,
  horner d (Zpos acc) = Zpos (Pos.of_uint_acc d acc).
Proof.
  induction d; intros acc; cbn [horner Pos.of_uint_acc]; try reflexivity.
  all: rewrite <- IHd; f_equal; lia.
Qed.

Lemma horner_0 (d : Decimal.uint) : horner d 0 = Z.of_N (Pos.of_uint d).
Proof.
  induction d; cbn [horner Pos.of_uint]; try reflexivity; try exact IHd.
  all: cbn [Z.mul Z.add]; rewrite horner_pos; reflexivity.
Qed.

Lemma horner_to_uint (p : positive) : horner (Pos.to_uint p) 0 = Zpos p.
Proof.
  rewrite horner_0, DecimalPos.Unsigned.of_to. reflexivity.
Qed.

(** The digits of a positive number, read by [SetString] after an
    optional minus sign. *)
Lemma SetString_digits (z0 : Z) (d : Decimal.uint) :
  d <> Decimal.Nil ->
  big.SetString z0 (DecimalString.NilEmpty.string_of_uint d) = (horner d 0, true) /\
  big.SetString z0 (String "-" (DecimalString.NilEmpty.string_of_uint d)) =
  (- horner d 0, true).
Proof.
  intros Hd. split.
  - destruct d; [destruct (Hd eq_refl)|..];
      unfold big.SetString; cbn [DecimalString.NilEmpty.string_of_uint];
      match goal with
      | |- context [if Ascii.eqb ?c "-" then _ else _] =>
          change (Ascii.eqb c "-") with false; change (Ascii.eqb c "+") with false
      end; cbv iota.
    all: match goal with
         | |- context [big.scan_digits (String ?c (DecimalString.NilEmpty.string_of_uint ?l))] =>
             match goal with
             | |- context [horner ?u 0] =>
                 change (String c (DecimalString.NilEmpty.string_of_uint l))
                   with (DecimalString.NilEmpty.string_of_uint u)
             end
         end.
    all: rewrite scan_digits_uint; cbn [Decimal.nb_digits Nat.add]; reflexivity.
  - unfold big.SetString. change (Ascii.eqb "-" "-") with true. cbv iota.
    rewrite scan_digits_uint.
    destruct d; [destruct (Hd eq_refl)|..]; cbn [Decimal.nb_digits Nat.add];
      reflexivity.
Qed.

Lemma string_of_uint_nonnil (d : Decimal.uint) :
  d <> Decimal.Nil ->
  DecimalString.NilZero.string_of_uint d = DecimalString.NilEmpty.string_of_uint d.
Proof.
  intros Hd. destruct d; [destruct (Hd eq_refl)|..]; reflexivity.
Qed.

(** Reading back the base-10 text of any integer gives that integer
    exactly, whatever its size or sign, with the [ok] flag set. *)
Lemma SetString_decimal (z0 z : Z) : big.SetString z0 (decimal z) = (z, true).
Proof.
  unfold decimal.
  destruct z as [|p|p]; cbn [Z.to_int DecimalString.NilZero.string_of_int].
  - reflexivity.
  - pose proof (DecimalPos.Unsigned.to_uint_nonnil p) as Hn.
    rewrite (string_of_uint_nonnil Hn), (proj1 (SetString_digits z0 Hn)).
    rewrite horner_to_uint. reflexivity.
  - pose proof (DecimalPos.Unsigned.to_uint_nonnil p) as Hn.
    rewrite (string_of_uint_nonnil Hn), (proj2 (SetString_digits z0 Hn)).
    rewrite horner_to_uint. reflexivity.
Qed.

(** A text without a digit in first place leaves a fresh amount at 0. *)
Lemma SetString_without_digit (s : string) :
  starts_without_digit s = true -> big.SetString 0 s = (0, false).
Proof.
  unfold starts_without_digit, big.SetString.
  destruct s as [|c rest]; [reflexivity|].
  destruct (Ascii.eqb c "-"); [|destruct (Ascii.eqb c "+")]; cbn [orb].
  - destruct rest as [|d r]; [reflexivity|].
    intros H. cbn [big.scan_digits]. apply negb_true_iff in H. rewrite H. reflexivity.
  - destruct rest as [|d r]; [reflexivity|].
    intros H. cbn [big.scan_digits]. apply negb_true_iff in H. rewrite H. reflexivity.
  - intros H. cbn [big.scan_digits]. apply negb_true_iff in H. rewrite H. reflexivity.
Qed.

(** [Int64] returns its argument exactly when the argument lies in the
    [int64] range. *)
Lemma Int64_exact_iff (x : Z) : big.Int64 x = x <-> - 2 ^ 63 <= x < 2 ^ 63.
Proof.
  split.
  - intros H. rewrite <- H. apply Int64_bounds.
  - apply Int64_in_range.
Qed.

Lemma to_int64_periodic (x k : Z) : big.to_int64 (x + k * 2 ^ 64) = big.to_int64 x.
Proof.
  unfold big.to_int64.
  replace (x + k * 2 ^ 64 + 2 ^ 63) with (x + 2 ^ 63 + k * 2 ^ 64) by lia.
  rewrite Z.mod_add by lia. reflexivity.
Qed.

(** Two non-negative amounts that differ by a multiple of 2^64 have the
    same [Int64]. *)
Lemma Int64_collision (x k : Z) :
  0 <= x -> 0 <= k -> big.Int64 (x + k * 2 ^ 64) = big.Int64 x.
Proof.
  intros Hx Hk. unfold big.Int64.
  assert (H0 : 0 <= x + k * 2 ^ 64) by nia.
  destruct (Z.ltb_spec (x + k * 2 ^ 64) 0); [lia|].
  destruct (Z.ltb_spec x 0); [lia|].
  rewrite !Z.abs_eq by assumption.
  rewrite Z.mod_add by lia. reflexivity.
Qed.

(* ------------------------------------------------------------------ *)
(** ** The chain watcher: what it publishes and what it calls *)

Section WatcherTraces.

Context {lib : EthLib}.
Variables (w : World) (m : Manager).

(** The state the watcher loop reaches when every resubscription
    succeeds. *)
Lemma watch_loop_trace (myAbi : Abi) :
  (forall t, exists sub, abi_WatchTransfer w t myAbi = Ok sub) ->
  forall (sels : list Select) (sub : Subscription) (s : State),
    fst (watch_loop w m myAbi sub sels s) =
    {| pubs := (pubs s ++ map transfer_event (kept_transfers sels))%list;
       calls := (calls s ++
                 repeat (CallWatchTransfer myAbi) (stream_errors sels))%list |}.
Proof.
  intros Hre sels. induction sels as [|sel rest IH]; intros sub s.
  - cbn. rewrite !app_nil_r. destruct s; reflexivity.
  - cbn [watch_loop kept_transfers stream_errors]. unfold bind at 1.
    destruct sel as [[e|]|tr]; go_unfold.
    + destruct (Hre (List.length (calls s))) as [sub' ->]. rewrite IH.
      cbn [pubs calls repeat]. rewrite <- app_assoc. reflexivity.
    + apply IH.
    + destruct (Removed (Raw tr)); cbn [negb]; rewrite IH; [reflexivity|].
      cbn [pubs calls map]. rewrite <- app_assoc. reflexivity.
Qed.

(** X5: While every resubscription succeeds, the watcher publishes exactly
    the events of the transfers that were not removed, once each, in
    arrival order, all on the transfer-watch topic. *)
Theorem watch_loop_publishes_kept_transfers (myAbi : Abi) :
  (forall t, exists sub, abi_WatchTransfer w t myAbi = Ok sub) ->
  forall (sels : list Select) (sub : Subscription) (s : State),
    pubs (fst (watch_loop w m myAbi sub sels s)) =
    (pubs s ++ map transfer_event (kept_transfers sels))%list.
Proof.
  intros Hre sels sub s. rewrite watch_loop_trace by exact Hre. reflexivity.
Qed.

(** X6: While every resubscription succeeds, the only calls the watcher loop
    makes are resubscriptions, exactly one per non-nil error received
    from the subscription; a nil error or a transfer causes no call. *)
Theorem watch_loop_resubscribes_once_per_error (myAbi : Abi) :
  (forall t, exists sub, abi_WatchTransfer w t myAbi = Ok sub) ->
  forall (sels : list Select) (sub : Subscription) (s : State),
    calls (fst (watch_loop w m myAbi sub sels s)) =
    (calls s ++ repeat (CallWatchTransfer myAbi) (stream_errors sels))%list.
Proof.
  intros Hre sels sub s. rewrite watch_loop_trace by exact Hre. reflexivity.
Qed.

Lemma watch_loop_publishes_a_prefix (myAbi : Abi) (sels : list Select)
        (sub : Subscription) (s : State) :
  exists n : nat,
    (n <= List.length sels)%nat /\
    pubs (fst (watch_loop w m myAbi sub sels s)) =
    (pubs s ++ map transfer_event (kept_transfers (firstn n sels)))%list /\
    (snd (watch_loop w m myAbi sub sels s) = Blocked -> n = List.length sels).
Proof.
  revert sub s. induction sels as [|sel rest IH]; intros sub s.
  - exists 0%nat. cbn. rewrite app_nil_r. auto.
  - cbn [watch_loop]. unfold bind.
    destruct sel as [[e|]|tr]; go_unfold.
    + destruct (abi_WatchTransfer w (List.length (calls s)) myAbi) as [sub'|msg].
      * match goal with
        | |- context [watch_loop w m myAbi sub' rest ?s1] =>
            destruct (IH sub' s1) as (n & Hn & Hp & Hb)
        end.
        exists (S n). cbn [firstn kept_transfers List.length].
        split; [lia|]. split; [exact Hp|]. intros H. rewrite (Hb H). reflexivity.
      * exists 0%nat. cbn. rewrite app_nil_r.
        split; [lia|]. split; [reflexivity|]. discriminate.
    + destruct (IH sub s) as (n & Hn & Hp & Hb).
      exists (S n). cbn [firstn kept_transfers List.length].
      split; [lia|]. split; [exact Hp|]. intros H. rewrite (Hb H). reflexivity.
    + destruct (Removed (Raw tr)) eqn:Hr; cbn [negb].
      * destruct (IH sub s) as (n & Hn & Hp & Hb).
        exists (S n). cbn [firstn kept_transfers List.length]. rewrite Hr.
        split; [lia|]. split; [exact Hp|]. intros H. rewrite (Hb H). reflexivity.
      * match goal with
        | |- context [watch_loop w m myAbi sub rest ?s1] =>
            destruct (IH sub s1) as (n & Hn & Hp & Hb)
        end.
        exists (S n). cbn [firstn kept_transfers List.length]. rewrite Hr.
        split; [lia|]. split.
        -- rewrite Hp. cbn [pubs map]. rewrite <- app_assoc. reflexivity.
        -- intros H. rewrite (Hb H). reflexivity.
Qed.

(** X7: Whatever the node answers, [watchTransactions] has handled a prefix
    of the values it received: it has published the events of the kept
    transfers of that prefix, in order, and nothing else; the prefix is
    the whole sequence when the watcher is still running. *)
Theorem watchTransactions_publishes_a_prefix (sels : list Select) (s : State) :
  exists n : nat,
    (n <= List.length sels)%nat /\
    pubs (fst (watchTransactions w m sels s)) =
    (pubs s ++ map transfer_event (kept_transfers (firstn n sels)))%list /\
    (snd (watchTransactions w m sels s) = Blocked -> n = List.length sels).
Proof.
  unfold watchTransactions, Dial, NewAbi, WatchTransfer, call, bind, ret.
  destruct (ethclient_Dial w _ _) as [client|e1]; go_norm.
  2: { exists 0%nat. cbn. rewrite app_nil_r.
       split; [lia|]. split; [reflexivity|]. discriminate. }
  destruct (fvm_NewAbi w _ _ client) as [myAbi|e2]; go_norm.
  2: { exists 0%nat. cbn. rewrite app_nil_r.
       split; [lia|]. split; [reflexivity|]. discriminate. }
  destruct (abi_WatchTransfer w _ myAbi) as [sub|e3]; go_norm.
  2: { exists 0%nat. cbn. rewrite app_nil_r.
       split; [lia|]. split; [reflexivity|]. discriminate. }
  match goal with
  | |- context [watch_loop w m myAbi sub sels ?s1] =>
      destruct (watch_loop_publishes_a_prefix myAbi sels sub s1) as (n & Hn & Hp & Hb)
  end.
  exists n. split; [exact Hn|]. split; [exact Hp|exact Hb].
Qed.

Lemma watch_loop_returns_on_failure (myAbi : Abi) (sels : list Select) :
  forall (sub : Subscription) (s : State) (err : error),
    snd (watch_loop w m myAbi sub sels s) = Returned err ->
    err <> None /\ last_call_failed w (calls (fst (watch_loop w m myAbi sub sels s))).
Proof.
  induction sels as [|sel rest IH]; intros sub s err.
  - discriminate.
  - cbn [watch_loop]. unfold bind.
    destruct sel as [[e|]|tr]; go_unfold.
    + destruct (abi_WatchTransfer w (List.length (calls s)) myAbi)
        as [sub'|msg] eqn:E.
      * apply IH.
      * cbn [fst snd calls]. intros H. injection H as <-.
        split; [discriminate|]. exists (calls s), (CallWatchTransfer myAbi).
        split; [reflexivity|]. cbn [failed]. rewrite E. reflexivity.
    + apply IH.
    + destruct (negb (Removed (Raw tr))); apply IH.
Qed.

(** X8: [watchTransactions] returns only with a non-nil error, and only
    right after a network call that the node answered with an error:
    nothing else ends the watcher. *)
Theorem watchTransactions_returns_on_failed_call (sels : list Select) (s : State)
        (err : error) :
  snd (watchTransactions w m sels s) = Returned err ->
  err <> None /\ last_call_failed w (calls (fst (watchTransactions w m sels s))).
Proof.
  unfold watchTransactions, Dial, NewAbi, WatchTransfer, call, bind, ret.
  destruct (ethclient_Dial w _ _) as [client|e1] eqn:E1; go_norm.
  2: { intros H. injection H as <-. split; [discriminate|].
       eexists (calls s), _. split; [reflexivity|]. cbn [failed]. rewrite E1.
       reflexivity. }
  destruct (fvm_NewAbi w _ _ client) as [myAbi|e2] eqn:E2; go_norm.
  2: { intros H. injection H as <-. split; [discriminate|].
       eexists (calls s ++ [_])%list, _. split; [rewrite <- app_assoc; reflexivity|].
       rewrite length_app. cbn [List.length failed]. rewrite E2. reflexivity. }
  destruct (abi_WatchTransfer w _ myAbi) as [sub|e3] eqn:E3; go_norm.
  2: { intros H. injection H as <-. split; [discriminate|].
       eexists (calls s ++ [_; _])%list, _.
       split; [rewrite <- app_assoc; reflexivity|].
       rewrite length_app. cbn [List.length failed]. rewrite E3. reflexivity. }
  apply watch_loop_returns_on_failure.
Qed.

(** X9: For a transfer that was not removed, the value the watcher publishes
    is the transferred amount exactly when that amount fits an [int64]. *)
Theorem watch_publishes_exact_value_iff (myAbi : Abi) (sub : Subscription)
        (tr : AbiTransfer) (s : State) :
  Removed (Raw tr) = false ->
  (pubs (fst (watch_iteration w m myAbi sub (RecvSink tr) s)) =
   (pubs s ++
    [(EventTransferWatch,
      Watch {| FvmTransferWatch.ID := Hash_Hex (TxHash (Raw tr));
               FvmTransferWatch.From := Address_Hex (From tr);
               FvmTransferWatch.To := Address_Hex (To tr);
               FvmTransferWatch.Value := Value tr |})])%list
   <-> - 2 ^ 63 <= Value tr < 2 ^ 63).
Proof.
  intros Hr. rewrite watch_iteration_kept by exact Hr. cbn [fst pubs].
  split.
  - intros H. apply app_inv_head in H. injection H as H.
    apply Int64_exact_iff. exact H.
  - intros H. rewrite Int64_in_range by exact H. reflexivity.
Qed.

(** X10: Two transfers that differ only in their amounts, by a multiple of
    2^64, are handled alike: the watcher publishes the same event for
    both. *)
Theorem watch_amounts_collide (myAbi : Abi) (sub : Subscription)
        (tr : AbiTransfer) (k : Z) (s : State) :
  0 <= Value tr -> 0 <= k ->
  watch_iteration w m myAbi sub
    (RecvSink {| From := From tr; To := To tr;
                 Value := Value tr + k * 2 ^ 64; Raw := Raw tr |}) s =
  watch_iteration w m myAbi sub (RecvSink tr) s.
Proof.
  intros Hv Hk. unfold watch_iteration. cbn [From To Value Raw].
  rewrite Int64_collision by assumption. reflexivity.
Qed.

End WatcherTraces.

(* ------------------------------------------------------------------ *)
(** ** The outbound executor: calls, errors, amounts *)

Section OutboundTraces.

Context {lib : EthLib}.
Variables (w : World) (m : Manager).

(** The calls of a mint or transfer are a prefix of the fixed sequence,
    complete when the operation succeeds and cut short by a key that
    cannot be used. *)
Lemma execute_calls_prefix (op : Outbound) (toAddr valueStr : string) (s : State) :
  exists (n : nat) (new : list Call),
    (1 <= n <= 4)%nat /\
    pubs (fst (execute w op m toAddr valueStr s)) = pubs s /\
    calls (fst (execute w op m toAddr valueStr s)) = (calls s ++ new)%list /\
    map kind new = firstn n (outbound_kinds op) /\
    (snd (snd (execute w op m toAddr valueStr s)) = None -> n = 4%nat) /\
    (key_stage_fails m ->
     (n <= match op with DoMint => 2 | DoTransfer => 1 end)%nat /\
     snd (snd (execute w op m toAddr valueStr s)) <> None).
Proof.
  unfold key_stage_fails.
  destruct op; go_unfold; repeat go_case; go_norm.
  all: first
         [ exists 4%nat; eexists; split; [lia|]; split; [reflexivity|];
           split; [reflexivity|]; split; [reflexivity|]; split; [reflexivity|]
         | exists 4%nat; eexists; split; [lia|]; split; [reflexivity|];
           split; [reflexivity|]; split; [reflexivity|]; split; [discriminate|]
         | exists 3%nat; eexists; split; [lia|]; split; [reflexivity|];
           split; [reflexivity|]; split; [reflexivity|]; split; [discriminate|]
         | exists 2%nat; eexists; split; [lia|]; split; [reflexivity|];
           split; [reflexivity|]; split; [reflexivity|]; split; [discriminate|]
         | exists 1%nat; eexists; split; [lia|]; split; [reflexivity|];
           split; [reflexivity|]; split; [reflexivity|]; split; [discriminate|] ].
  all: intros Hk;
    first [ split; [lia | discriminate]
          | exfalso; destruct Hk as [[msg0 Hk]|[k0 [Hk Ha]]]; congruence ].
Qed.

(** X3: A mint or transfer publishes nothing on the bus and makes its calls
    in the fixed order dial, contract binding, network id, contract
    call, stopping at the first stage that fails: a call answered with
    an error is the last call made and the operation returns an error; a
    private key that cannot be used stops a mint after the binding and a
    transfer after the dial, with an error.  So it makes at least the
    dial, at most one contract call and never the contract call of the
    other operation; when it succeeds it has made all four, and when it
    made fewer it returns an error. *)
Theorem outbound_calls_in_order (op : Outbound) (toAddr valueStr : string)
        (s : State) :
  exists (n : nat) (new : list Call),
    (1 <= n <= 4)%nat /\
    pubs (fst (execute w op m toAddr valueStr s)) = pubs s /\
    calls (fst (execute w op m toAddr valueStr s)) = (calls s ++ new)%list /\
    map kind new = firstn n (outbound_kinds op) /\
    (snd (snd (execute w op m toAddr valueStr s)) = None -> n = 4%nat) /\
    (forall (i : nat) (c : Call),
        nth_error new i = Some c ->
        failed w (List.length (calls s) + i) c = true ->
        S i = n /\ snd (snd (execute w op m toAddr valueStr s)) <> None) /\
    (key_stage_fails m ->
     (n <= match op with DoMint => 2 | DoTransfer => 1 end)%nat /\
     snd (snd (execute w op m toAddr valueStr s)) <> None) /\
    ((n < 4)%nat -> snd (snd (execute w op m toAddr valueStr s)) <> None).
Proof.
  destruct (execute_calls_prefix op toAddr valueStr s)
    as (n & new & Hn & Hp & Hc & Hk & Hs & Hkey).
  assert (Hlen : List.length new = n).
  { rewrite <- (length_map kind), Hk, length_firstn.
    destruct op; cbn [outbound_kinds List.length]; lia. }
  exists n, new.
  split; [exact Hn|]. split; [exact Hp|]. split; [exact Hc|].
  split; [exact Hk|]. split; [exact Hs|]. split; [|split; [exact Hkey|]].
  - intros i c Hi Hf.
    destruct (execute_propagates w m op toAddr valueStr s
                (i := (List.length (calls s) + i)%nat) (c := c)) as [He Hl].
    + lia.
    + rewrite Hc, nth_error_app2 by lia.
      replace (List.length (calls s) + i - List.length (calls s))%nat with i by lia.
      exact Hi.
    + exact Hf.
    + split; [|exact He].
      rewrite Hc, length_app in Hl. lia.
  - intros Hlt He. apply Hs in He. lia.
Qed.

(** X4: Every error of a mint or transfer names the stage that failed and
    carries that stage's own message, and it comes with the empty hash.
    Either the last call the operation made was answered with an error,
    and the error is the prefix of that call ([Dial err:], [NewAbi err:],
    [NetworkID err:], [Mint err:] or [Transfer err:]) followed by the
    message of that answer; or every call made succeeded and the private
    key did not parse, and the error is [HexToECDSA err:] followed by
    the parser's message; or every call made succeeded and the public
    key is not an ECDSA key, and the error is [publicKey err:]. *)
Theorem outbound_error_names_stage (op : Outbound) (toAddr valueStr : string)
        (s : State) (h e : string) :
  snd (execute w op m toAddr valueStr s) = (h, Some e) ->
  h = EmptyString /\
  (exists prefix msg : string,
      In prefix (stage_prefixes op) /\ e = (prefix ++ msg)%string) /\
  ((exists (front : list Call) (c : Call) (msg : string),
       calls (fst (execute w op m toAddr valueStr s)) = (front ++ [c])%list /\
       (List.length (calls s) <= List.length front)%nat /\
       error_message w (List.length front) c = Some msg /\
       e = (outbound_prefix c ++ msg)%string) \/
   (no_call_failed w (List.length (calls s))
                   (calls (fst (execute w op m toAddr valueStr s))) /\
    exists msg : string,
      HexToECDSA (config.PrivateKeyStr (cfg m)) = Err msg /\
      e = ("HexToECDSA err:" ++ msg)%string) \/
   (no_call_failed w (List.length (calls s))
                   (calls (fst (execute w op m toAddr valueStr s))) /\
    exists k : PrivateKey,
      HexToECDSA (config.PrivateKeyStr (cfg m)) = Ok k /\
      assert_ecdsa (Public k) = None /\
      e = "publicKey err:")).
Proof.
  unfold stage_prefixes.
  destruct op; go_unfold; repeat go_case; cbn [snd fst contract_prefix];
    intros H; try discriminate H; injection H as <- <-;
    (split; [reflexivity|]); split.
  all: try first
         [ exists "Dial err:"; eexists; split; [cbn; tauto | reflexivity]
         | exists "NewAbi err:"; eexists; split; [cbn; tauto | reflexivity]
         | exists "HexToECDSA err:"; eexists; split; [cbn; tauto | reflexivity]
         | exists "NetworkID err:"; eexists; split; [cbn; tauto | reflexivity]
         | exists "Mint err:"; eexists; split; [cbn; tauto | reflexivity]
         | exists "Transfer err:"; eexists; split; [cbn; tauto | reflexivity]
         | exists "publicKey err:", EmptyString; split; [cbn; tauto | reflexivity] ].
  all: cbn [calls pubs] in *.
  all: first
         [ (* the last call failed *)
           left; eexists _, _, _; split; [reflexivity|];
           split; [rewrite ?length_app; cbn; lia|];
           split; [cbn [error_message];
                   match goal with
                   | Hq : ?x = Err _ |- context [?x] => rewrite Hq
                   end; reflexivity
                  | reflexivity ]
         | (* the key did not parse, or is not an ECDSA key *)
           right;
           first [ left; split; [|eexists; split; reflexivity]
                 | right; split;
                   [|eexists; split; [reflexivity|];
                     split; [eassumption | reflexivity]] ];
           unfold no_call_failed; intros i c Hle Hnth; go_norm;
           rewrite nth_error_app2 in Hnth by lia;
           remember (i - List.length (calls s))%nat as k eqn:Hk;
           assert (i = (List.length (calls s) + k)%nat) by lia; subst i; clear Hk;
           repeat (destruct k as [|k];
                   [ cbn in Hnth; try discriminate Hnth;
                     injection Hnth as <-; cbn [failed];
                     rewrite ?Nat.add_0_r;
                     match goal with
                     | Hq : ?x = Ok _ |- context [?x] => rewrite Hq
                     end; reflexivity
                   | cbn [nth_error] in Hnth; try discriminate Hnth ]) ].
Qed.

(** Where the amount text goes: once the four stages before it succeed,
    the contract call is made with whatever [SetString] left in the
    amount, for every text. *)
Lemma execute_reaches_contract
      (op : Outbound) (toAddr valueStr : string) (s : State)
      (client : Client) (myAbi : Abi) (privateKey : PrivateKey)
      (publicKeyECDSA : ECDSAPublicKey) (chainID : big.Int) :
  let t := List.length (calls s) in
  let addr := config.LotusHTTPSAddr (cfg m) in
  let tokenAddress := HexToAddress (config.TitanContractorAddr (cfg m)) in
  let amount := fst (big.SetString 0 valueStr) in
  let opts := {| opts_Signer := SignTx (LatestSignerForChainID chainID) privateKey;
                 opts_From := PubkeyToAddress publicKeyECDSA |} in
  ethclient_Dial w t addr = Ok client ->
  fvm_NewAbi w (t + 1) tokenAddress client = Ok myAbi ->
  HexToECDSA (config.PrivateKeyStr (cfg m)) = Ok privateKey ->
  assert_ecdsa (Public privateKey) = Some publicKeyECDSA ->
  client_NetworkID w (t + 2) client = Ok chainID ->
  execute w op m toAddr valueStr s =
  ({| pubs := pubs s;
      calls := (calls s ++
                [CallDial addr; CallNewAbi tokenAddress client; CallNetworkID client;
                 contract_call op myAbi opts (HexToAddress toAddr) amount])%list |},
   match contract_answer w op (t + 3) myAbi opts (HexToAddress toAddr) amount with
   | Ok tr => (Hash_Hex (Transaction_Hash tr), None)
   | Err e => (EmptyString, Errorf (contract_prefix op) e)
   end).
Proof.
  intros t addr tokenAddress amount opts HD HA HK HP HN.
  subst t addr tokenAddress amount opts.
  destruct op; go_unfold; go_norm; cbn [contract_answer contract_call contract_prefix].
  - rewrite HD. go_norm. rewrite HA, HK, HP. go_norm. rewrite HN. go_norm.
    destruct (abi_Mint _ _ _ _ _ _); go_norm; reflexivity.
  - rewrite HD, HK, HP. go_norm. rewrite HA. go_norm. rewrite HN. go_norm.
    destruct (abi_Transfer _ _ _ _ _ _); go_norm; reflexivity.
Qed.

(** X1: An amount given as the base-10 text of an integer reaches the
    contract call as that integer, exactly: there is no bound on its
    size, and a negative amount is passed on as it is. *)
Theorem outbound_passes_exact_amount
        (op : Outbound) (toAddr : string) (z : Z) (s : State)
        (client : Client) (myAbi : Abi) (privateKey : PrivateKey)
        (publicKeyECDSA : ECDSAPublicKey) (chainID : big.Int) :
  let t := List.length (calls s) in
  let addr := config.LotusHTTPSAddr (cfg m) in
  let tokenAddress := HexToAddress (config.TitanContractorAddr (cfg m)) in
  let opts := {| opts_Signer := SignTx (LatestSignerForChainID chainID) privateKey;
                 opts_From := PubkeyToAddress publicKeyECDSA |} in
  ethclient_Dial w t addr = Ok client ->
  fvm_NewAbi w (t + 1) tokenAddress client = Ok myAbi ->
  HexToECDSA (config.PrivateKeyStr (cfg m)) = Ok privateKey ->
  assert_ecdsa (Public privateKey) = Some publicKeyECDSA ->
  client_NetworkID w (t + 2) client = Ok chainID ->
  calls (fst (execute w op m toAddr (decimal z) s)) =
  (calls s ++
   [CallDial addr; CallNewAbi tokenAddress client; CallNetworkID client;
    contract_call op myAbi opts (HexToAddress toAddr) z])%list.
Proof.
  intros t addr tokenAddress opts HD HA HK HP HN.
  rewrite (execute_reaches_contract op toAddr (decimal z) s HD HA HK HP HN).
  cbn [fst calls]. rewrite SetString_decimal. reflexivity.
Qed.

(** X2: An amount text with no digit in first place (the empty text, a sign
    alone, a word) is not rejected: the contract call is made with
    amount 0, and its answer decides the result. *)
Theorem outbound_malformed_amount_is_zero
        (op : Outbound) (toAddr valueStr : string) (s : State)
        (client : Client) (myAbi : Abi) (privateKey : PrivateKey)
        (publicKeyECDSA : ECDSAPublicKey) (chainID : big.Int) :
  let t := List.length (calls s) in
  let addr := config.LotusHTTPSAddr (cfg m) in
  let tokenAddress := HexToAddress (config.TitanContractorAddr (cfg m)) in
  let opts := {| opts_Signer := SignTx (LatestSignerForChainID chainID) privateKey;
                 opts_From := PubkeyToAddress publicKeyECDSA |} in
  starts_without_digit valueStr = true ->
  ethclient_Dial w t addr = Ok client ->
  fvm_NewAbi w (t + 1) tokenAddress client = Ok myAbi ->
  HexToECDSA (config.PrivateKeyStr (cfg m)) = Ok privateKey ->
  assert_ecdsa (Public privateKey) = Some publicKeyECDSA ->
  client_NetworkID w (t + 2) client = Ok chainID ->
  execute w op m toAddr valueStr s =
  ({| pubs := pubs s;
      calls := (calls s ++
                [CallDial addr; CallNewAbi tokenAddress client; CallNetworkID client;
                 contract_call op myAbi opts (HexToAddress toAddr) 0])%list |},
   match contract_answer w op (t + 3) myAbi opts (HexToAddress toAddr) 0 with
   | Ok tr => (Hash_Hex (Transaction_Hash tr), None)
   | Err e => (EmptyString, Errorf (contract_prefix op) e)
   end).
Proof.
  intros t addr tokenAddress opts Hs HD HA HK HP HN.
  rewrite (execute_reaches_contract op toAddr valueStr s HD HA HK HP HN).
  rewrite (SetString_without_digit valueStr Hs). reflexivity.
Qed.

(** Each operation dials the node once, first thing. *)
Lemma execute_dials_once (op : Outbound) (toAddr valueStr : string) (s : State) :
  filter is_dial (calls (fst (execute w op m toAddr valueStr s))) =
  (filter is_dial (calls s) ++ [CallDial (config.LotusHTTPSAddr (cfg m))])%list.
Proof.
  destruct op; go_unfold; repeat go_case; go_norm;
    rewrite filter_app; reflexivity.
Qed.

End OutboundTraces.

(* ------------------------------------------------------------------ *)
(** ** The responder over any sequence of payloads *)

Section ResponderTraces.

Context {lib : EthLib}.
Variables (w : World) (m : Manager).

(** X11: [subscribeEvents] answers the requests it reads, in order, with one
    response each on the response topic, until the first payload that is
    not a request: that payload stops it with a panic, and whatever
    follows is never answered.  It publishes nothing else, and it never
    returns. *)
Theorem subscribeEvents_answers_leading_requests (us : list Payload) (s : State) :
  snd (subscribeEvents w m us s) =
  (if (List.length (leading_requests us) =? List.length us)%nat
   then Blocked else Panicked) /\
  exists reps : list FvmTransferRep.t,
    pubs (fst (subscribeEvents w m us s)) =
    (pubs s ++ map (fun rep => (EventTransferRep, Rep rep)) reps)%list /\
    map FvmTransferRep.ID reps = map FvmTransferReq.ID (leading_requests us).
Proof.
  revert s. induction us as [|u rest IH]; intros s.
  - split; [reflexivity|]. exists []. cbn. rewrite app_nil_r. split; reflexivity.
  - cbn [subscribeEvents]. unfold bind.
    destruct u as [e|tr|e|].
    1,3,4: cbn; split; [reflexivity|]; exists []; cbn; rewrite app_nil_r;
      split; reflexivity.
    rewrite subscribeEvents_iteration_Req. cbv zeta.
    cbn [leading_requests List.length Nat.eqb map].
    match goal with
    | |- context [subscribeEvents w m rest ?s1] =>
        destruct (IH s1) as (Hb & reps & Hp & Hids)
    end.
    split; [exact Hb|].
    eexists (_ :: reps). rewrite Hp. cbn [pubs map].
    rewrite <- app_assoc. cbn [app]. split; [reflexivity|].
    cbn. congruence.
Qed.

(** X12: Every request is served over a connection of its own: the responder
    dials the node once per request it answers. *)
Theorem subscribeEvents_dials_once_per_request (us : list Payload) (s : State) :
  List.length (filter is_dial (calls (fst (subscribeEvents w m us s)))) =
  (List.length (filter is_dial (calls s)) + List.length (leading_requests us))%nat.
Proof.
  revert s. induction us as [|u rest IH]; intros s.
  - cbn. lia.
  - cbn [subscribeEvents]. unfold bind.
    destruct u as [e|tr|e|].
    1,3,4: cbn; lia.
    rewrite subscribeEvents_iteration_Req. cbv zeta.
    cbn [leading_requests List.length].
    rewrite IH. cbn [calls].
    pose proof (execute_dials_once w m DoMint (FvmTransferReq.To tr)
                  (FvmTransferReq.Value tr) s) as Hd.
    cbn [execute] in Hd. rewrite Hd, length_app. cbn [List.length]. lia.
Qed.

End ResponderTraces.

(* ------------------------------------------------------------------ *)
(** ** The read operations *)

Section ReadOperations.

Context {lib : EthLib}.
Variables (w : World) (m : Manager).

(** X13: [GetHeight], [GetBalance] and [CheckMessage] only read from the
    node: none of their calls is a mint, a transfer or a subscription;
    and the first two publish nothing on the bus. *)
Theorem read_operations_do_not_submit (addr tx : string) (s : State) :
  (pubs (fst (GetHeight w m s)) = pubs s /\
   exists new, calls (fst (GetHeight w m s)) = (calls s ++ new)%list /\
               forallb (fun c => negb (is_submission c)) new = true) /\
  (pubs (fst (GetBalance w m addr s)) = pubs s /\
   exists new, calls (fst (GetBalance w m addr s)) = (calls s ++ new)%list /\
               forallb (fun c => negb (is_submission c)) new = true) /\
  (exists new, calls (fst (CheckMessage w m tx s)) = (calls s ++ new)%list /\
               forallb (fun c => negb (is_submission c)) new = true).
Proof.
  split; [|split].
  - go_unfold; repeat go_case; go_norm;
      (split; [reflexivity|]); eexists; split; reflexivity.
  - go_unfold; repeat go_case; go_norm;
      (split; [reflexivity|]); eexists; split; reflexivity.
  - go_unfold; repeat go_case; go_norm; eexists; split; reflexivity.
Qed.

(** X14: [CheckMessage] keeps no record of what it has published: checking
    the same confirmed transaction twice publishes its event twice. *)
Theorem CheckMessage_twice_publishes_twice (tx : string) (s : State)
        (cid : Cid) (msg : message) (info : lookup) :
  let t := List.length (calls s) in
  lookups_succeed w m tx t cid msg info ->
  lookups_succeed w m tx (t + 3) cid msg info ->
  ExitCode (Receipt info) = 0 ->
  let ev := (EventTransferWatch,
             Watch {| FvmTransferWatch.ID := tx;
                      FvmTransferWatch.From := FilAddress_String (msg_From msg);
                      FvmTransferWatch.To := FilAddress_String (msg_To msg);
                      FvmTransferWatch.Value := big.Int64 (msg_Value msg) |}) in
  pubs (fst (CheckMessage w m tx (fst (CheckMessage w m tx s)))) =
  (pubs s ++ [ev; ev])%list.
Proof.
  cbv zeta. unfold lookups_succeed.
  intros (H1 & H2 & H3) (H4 & H5 & H6) Hz.
  apply Z.eqb_eq in Hz.
  go_unfold. go_norm.
  rewrite H1. go_norm. rewrite H2. go_norm. rewrite H3. go_norm. rewrite Hz. go_norm.
  rewrite H4. go_norm. rewrite H5. go_norm. rewrite H6. go_norm. rewrite Hz. go_norm.
  reflexivity.
Qed.

End ReadOperations.

(* ------------------------------------------------------------------ *)
(** ** lib/aliyun: all wrappers *)

Section WrapperFacts.

Variables (float32 : Type) (zero32 : float32) (EcsClient : Type).
Variables (StartInstancesResponse DescribeInstanceAttributeResponse
           AuthorizeSecurityGroupResponse DescribeRegionsResponse
           DescribeRecommendInstanceTypeResponse DescribeImagesResponse
           DescribeAvailableResourceResponse RebootInstanceResponse : Type).
Variable ecs : aliyun.Ecs float32 EcsClient.
Variable sdk : aliyun.Sdk float32 EcsClient StartInstancesResponse
                          DescribeInstanceAttributeResponse
                          AuthorizeSecurityGroupResponse DescribeRegionsResponse
                          DescribeRecommendInstanceTypeResponse DescribeImagesResponse
                          DescribeAvailableResourceResponse RebootInstanceResponse.
Variable json_Marshal : list string -> string + string.

Ltac unfold_wrappers :=
  unfold aliyun.CreateInstance, aliyun.RunInstances, aliyun.StartInstance,
    aliyun.DescribeSecurityGroups, aliyun.DescribeInstanceAttribute,
    aliyun.AllocatePublicIPAddress, aliyun.DescribePrice,
    aliyun.AuthorizeSecurityGroup, aliyun.DescribeRegions,
    aliyun.DescribeRecommendInstanceType, aliyun.CreateSecurityGroup,
    aliyun.DescribeImages, aliyun.DescribeAvailableResource,
    aliyun.CreateKeyPair, aliyun.AttachKeyPair, aliyun.RebootInstance in *.




Lemma append_group_ids_spec (grop : list (option (option string))) :
  forall out : list string,
    aliyun.append_group_ids grop out =
    if (List.length (aliyun.present_ids grop) =? List.length grop)%nat
    then inl (out ++ aliyun.present_ids grop)%list
    else inr ((out ++ aliyun.present_ids grop)%list, aliyun.nil_dereference).
Proof.
  induction grop as [|g rest IH]; intros out.
  - cbn. rewrite app_nil_r. reflexivity.
  - destruct g as [[id|]|]; cbn [aliyun.append_group_ids aliyun.present_ids
                                   List.length Nat.eqb].
    + rewrite IH, <- app_assoc. reflexivity.
    + rewrite app_nil_r. reflexivity.
    + rewrite app_nil_r. reflexivity.
Qed.

(** X18: When the SDK answers [DescribeSecurityGroups] with a list of groups,
    the wrapper returns the ids up to the first nil group or nil id: all
    of them without error when there is none, and otherwise the ids
    collected so far together with the nil-dereference error. *)
Theorem DescribeSecurityGroups_returns_ids_so_far
        (regionID keyID keySecret : string) (client : EcsClient)
        (grop : list (option (option string))) :
  aliyun.newClient ecs regionID keyID keySecret = inl client ->
  aliyun.DescribeSecurityGroupsWithOptions sdk client
    (aliyun.DescribeSecurityGroupsRequest float32 regionID) =
  aliyun.Reply (Some grop) None ->
  snd (aliyun.DescribeSecurityGroups ecs sdk regionID keyID keySecret) =
  (aliyun.present_ids grop,
   if (List.length (aliyun.present_ids grop) =? List.length grop)%nat
   then None else Some aliyun.nil_dereference_error).
Proof.
  intros Hc Hr. unfold aliyun.DescribeSecurityGroups, aliyun.closure.
  rewrite Hc, Hr, append_group_ids_spec. cbn [app].
  destruct (List.length (aliyun.present_ids grop) =? List.length grop)%nat;
    reflexivity.
Qed.

Lemma append_attach_results_spec (results : list (option aliyun.AttachResult)) :
  forall out : list aliyun.AttachKeyPairResponse,
    aliyun.append_attach_results results out =
    if (List.length (aliyun.present_results results) =? List.length results)%nat
    then inl (out ++ aliyun.present_results results)%list
    else inr ((out ++ aliyun.present_results results)%list, aliyun.nil_dereference).
Proof.
  induction results as [|r rest IH]; intros out.
  - cbn. rewrite app_nil_r. reflexivity.
  - destruct r as [[[c|] [i|] [msg|] [s|]]|];
      cbn [aliyun.append_attach_results aliyun.present_results List.length Nat.eqb];
      try (rewrite app_nil_r; reflexivity).
    rewrite IH, <- app_assoc. reflexivity.
Qed.

(** X19: When the SDK answers [AttachKeyPair] with a list of results, the
    wrapper returns one entry per result up to the first nil result or
    nil field: all of them without error when there is none, and
    otherwise the entries built so far together with the nil-dereference
    error.  The instance ids go out as the text [json.Marshal] gave, or
    as the empty text when it failed. *)
Theorem AttachKeyPair_returns_results_so_far
        (regionID keyID keySecret KeyPairName_ : string) (instanceIds : list string)
        (client : EcsClient) (results : list (option aliyun.AttachResult)) :
  let ids := match json_Marshal instanceIds with
             | inl text => text
             | inr _ => EmptyString
             end in
  let req := aliyun.AttachKeyPairRequest float32 regionID KeyPairName_ ids in
  aliyun.newClient ecs regionID keyID keySecret = inl client ->
  aliyun.AttachKeyPairWithOptions sdk client req = aliyun.Reply (Some results) None ->
  aliyun.AttachKeyPair ecs sdk json_Marshal regionID keyID keySecret KeyPairName_
                       instanceIds =
  ([req],
   (aliyun.present_results results,
    if (List.length (aliyun.present_results results) =? List.length results)%nat
    then None else Some aliyun.nil_dereference_error)).
Proof.
  cbv zeta. intros Hc Hr. unfold aliyun.AttachKeyPair, aliyun.closure.
  rewrite Hc, Hr, append_attach_results_spec. cbn [app].
  destruct (List.length (aliyun.present_results results) =? List.length results)%nat;
    reflexivity.
Qed.

(** X20: [CreateInstance], [RunInstances], [DescribePrice] and [CreateKeyPair]
    return a response exactly when they return no error. *)
Theorem response_iff_no_error
        (regionID keyID keySecret instanceType imageID password securityGroupID
           periodUnit priceUnit KeyPairName_ : string) (period : Z) (dryRun : bool) :
  let created := snd (aliyun.CreateInstance ecs regionID keyID keySecret instanceType
                        imageID securityGroupID periodUnit period dryRun) in
  let run := snd (aliyun.RunInstances ecs regionID keyID keySecret instanceType
                    imageID password securityGroupID periodUnit period) in
  let price := snd (aliyun.DescribePrice zero32 ecs sdk regionID keyID keySecret
                      instanceType priceUnit imageID period) in
  let pair := snd (aliyun.CreateKeyPair ecs sdk regionID keyID keySecret
                     KeyPairName_) in
  (fst created = None <-> snd created <> None) /\
  (fst run = None <-> snd run <> None) /\
  (fst price = None <-> snd price <> None) /\
  (fst pair = None <-> snd pair <> None).
Proof.
  cbv zeta. unfold_wrappers.
  unfold aliyun.finish, aliyun.tryErr, aliyun.returning, aliyun.closure,
    aliyun.create_out, aliyun.run_out, aliyun.first_instance_id, aliyun.deref.
  destruct (aliyun.newClient ecs regionID keyID keySecret) as [client|err].
  2: { cbn. repeat split; intros; congruence. }
  repeat split; cbn [fst snd]; repeat go_case; cbn [fst snd];
    intros; congruence.
Qed.

End WrapperFacts.

(* ------------------------------------------------------------------ *)
(** ** lib/aliyun: failures of the SDK *)

Section SdkFailures.

Variables (float32 : Type) (zero32 : float32) (EcsClient : Type).
Variables (StartInstancesResponse DescribeInstanceAttributeResponse
           AuthorizeSecurityGroupResponse DescribeRegionsResponse
           DescribeRecommendInstanceTypeResponse DescribeImagesResponse
           DescribeAvailableResourceResponse RebootInstanceResponse : Type).
Variable new : aliyun.Config -> EcsClient + aliyun.goerror.
Variable json_Marshal : list string -> string + string.

(** X21: No wrapper lets a panic of the SDK escape: when the SDK method
    panics, whatever the request, the wrapper returns an error that
    carries the text of the panic value and no code. *)
Theorem wrappers_contain_panics (v : string) (inv : aliyun.Invocation float32) :
  let ecs := uniform_ecs float32 new (fun R => aliyun.Panics v) in
  let sdk := uniform_sdk float32 EcsClient StartInstancesResponse
               DescribeInstanceAttributeResponse AuthorizeSecurityGroupResponse
               DescribeRegionsResponse DescribeRecommendInstanceTypeResponse
               DescribeImagesResponse DescribeAvailableResourceResponse
               RebootInstanceResponse (fun R => aliyun.Panic v) in
  match aliyun.client_of ecs inv with
  | inl _ =>
      aliyun.failure zero32 ecs sdk json_Marshal inv =
      Some {| aliyun.Code := None; aliyun.Message := Some v |}
  | inr _ => True
  end.
Proof.
  cbv zeta.
  destruct inv; cbn [aliyun.failure aliyun.client_of];
    unfold aliyun.CreateInstance, aliyun.RunInstances, aliyun.StartInstance,
      aliyun.DescribeSecurityGroups, aliyun.DescribeInstanceAttribute,
      aliyun.AllocatePublicIPAddress, aliyun.DescribePrice,
      aliyun.AuthorizeSecurityGroup, aliyun.DescribeRegions,
      aliyun.DescribeRecommendInstanceType, aliyun.CreateSecurityGroup,
      aliyun.DescribeImages, aliyun.DescribeAvailableResource,
      aliyun.CreateKeyPair, aliyun.AttachKeyPair, aliyun.RebootInstance;
    match goal with
    | |- context [aliyun.newClient ?e ?r ?k ?s] => destruct (aliyun.newClient e r k s)
    end; trivial; reflexivity.
Qed.

End SdkFailures.

Section SdkErrors.

Variables (float32 : Type) (zero32 : float32) (EcsClient : Type).
Variables (StartInstancesResponse DescribeInstanceAttributeResponse
           AuthorizeSecurityGroupResponse DescribeRegionsResponse
           DescribeRecommendInstanceTypeResponse DescribeImagesResponse
           DescribeAvailableResourceResponse RebootInstanceResponse : Type).
Variable ecs : aliyun.Ecs float32 EcsClient.
Variable sdk : aliyun.Sdk float32 EcsClient StartInstancesResponse
                          DescribeInstanceAttributeResponse
                          AuthorizeSecurityGroupResponse DescribeRegionsResponse
                          DescribeRecommendInstanceTypeResponse DescribeImagesResponse
                          DescribeAvailableResourceResponse RebootInstanceResponse.
Variable json_Marshal : list string -> string + string.

(** X22: An error of the SDK reaches the caller of every wrapper, whether
    or not the SDK hands back a response next to it: an [*tea.SDKError]
    unchanged, any other error as an [SDKError] with the error's text as
    message and no code. *)
Theorem wrappers_pass_sdk_errors (err : aliyun.goerror)
        (inv : aliyun.Invocation float32) :
  ecs_answers_with_error ecs err ->
  sdk_answers_with_error sdk err ->
  match aliyun.client_of ecs inv with
  | inl _ =>
      aliyun.failure zero32 ecs sdk json_Marshal inv =
      Some (match err with
            | aliyun.IsSDKError e => e
            | aliyun.OtherError msg =>
                {| aliyun.Code := None; aliyun.Message := Some msg |}
            end)
  | inr _ => True
  end.
Proof.
  intros [Hci Hri]
         (H1 & H2 & H3 & H4 & H5 & H6 & H7 & H8 & H9 & H10 & H11 & H12 & H13 & H14).
  destruct inv; cbn [aliyun.failure aliyun.client_of];
    unfold aliyun.CreateInstance, aliyun.RunInstances, aliyun.StartInstance,
      aliyun.DescribeSecurityGroups, aliyun.DescribeInstanceAttribute,
      aliyun.AllocatePublicIPAddress, aliyun.DescribePrice,
      aliyun.AuthorizeSecurityGroup, aliyun.DescribeRegions,
      aliyun.DescribeRecommendInstanceType, aliyun.CreateSecurityGroup,
      aliyun.DescribeImages, aliyun.DescribeAvailableResource,
      aliyun.CreateKeyPair, aliyun.AttachKeyPair, aliyun.RebootInstance;
    match goal with
    | |- context [aliyun.newClient ?e ?r ?k ?s] => destruct (aliyun.newClient e r k s)
    end; trivial.
  all: try rewrite Hci; try rewrite Hri.
  all: try match goal with
         | |- context [aliyun.StartInstancesWithOptions sdk ?c ?r] =>
             destruct (H1 c r) as [res ->]
         | |- context [aliyun.DescribeSecurityGroupsWithOptions sdk ?c ?r] =>
             destruct (H2 c r) as [res ->]
         | |- context [aliyun.DescribeInstanceAttributeWithOptions sdk ?c ?r] =>
             destruct (H3 c r) as [res ->]
         | |- context [aliyun.AllocatePublicIpAddressWithOptions sdk ?c ?r] =>
             destruct (H4 c r) as [res ->]
         | |- context [aliyun.DescribePriceWithOptions sdk ?c ?r] =>
             destruct (H5 c r) as [res ->]
         | |- context [aliyun.AuthorizeSecurityGroupWithOptions sdk ?c ?r] =>
             destruct (H6 c r) as [res ->]
         | |- context [aliyun.DescribeRegionsWithOptions sdk ?c ?r] =>
             destruct (H7 c r) as [res ->]
         | |- context [aliyun.DescribeRecommendInstanceTypeWithOptions sdk ?c ?r] =>
             destruct (H8 c r) as [res ->]
         | |- context [aliyun.CreateSecurityGroupWithOptions sdk ?c ?r] =>
             destruct (H9 c r) as [res ->]
         | |- context [aliyun.DescribeImagesWithOptions sdk ?c ?r] =>
             destruct (H10 c r) as [res ->]
         | |- context [aliyun.DescribeAvailableResourceWithOptions sdk ?c ?r] =>
             destruct (H11 c r) as [res ->]
         | |- context [aliyun.CreateKeyPairWithOptions sdk ?c ?r] =>
             destruct (H12 c r) as [res ->]
         | |- context [aliyun.AttachKeyPairWithOptions sdk ?c ?r] =>
             destruct (H13 c r) as [res ->]
         | |- context [aliyun.RebootInstanceWithOptions sdk ?c ?r] =>
             destruct (H14 c r) as [res ->]
         end.
  all: destruct err; reflexivity.
Qed.

End SdkErrors.


(* ------------------------------------------------------------------ *)
(** ** [NewManager] *)

Section NewManagerFacts.

Context {lib : EthLib}.
Variable w : World.

(** X15: [NewManager] reports only the failure of [getCfg].  With a
    configuration it returns a manager and no error even when the node
    cannot be dialed: the watcher it started has then returned its dial
    error, after that one call and without publishing anything, whatever
    was sent to it, and the responder is the only goroutine left. *)
Theorem NewManager_hides_watcher_failure (cfg0 : config.BasisCfg)
        (sels : list Select) (us : list Payload) (s : State) (e : string) :
  ethclient_Dial w (List.length (calls s)) (config.LotusWsAddr cfg0) = Err e ->
  exists (manager : Manager) (watcher responder : Goroutine),
    NewManager (Ok cfg0) = ((Some manager, None), [watcher; responder]) /\
    cfg manager = cfg0 /\
    run_goroutine w watcher sels us s =
    ({| pubs := pubs s;
        calls := (calls s ++ [CallDial (config.LotusWsAddr cfg0)])%list |},
     Returned (Errorf "Dial err:" e)) /\
    run_goroutine w responder sels us = subscribeEvents w manager us.
Proof.
  intros H. eexists _, _, _. split; [reflexivity|]. split; [reflexivity|].
  split; [|reflexivity].
  cbn [run_goroutine]. go_unfold. cbn [cfg]. rewrite H. reflexivity.
Qed.

(** When [getCfg] fails, no manager is returned and no goroutine is
    started. *)
Lemma NewManager_without_configuration (err : string) :
  NewManager (Err err) = ((None, Some err), []).
Proof. reflexivity. Qed.

End NewManagerFacts.

Lemma NewManager_hides_watcher_failure_witness :
  exists (manager : Manager) (watcher responder : Goroutine),
    NewManager (Ok (cfg Sample.m)) = ((Some manager, None), [watcher; responder]) /\
    run_goroutine Sample.down watcher SampleMore.received [] init =
    ({| pubs := []; calls := [CallDial "ws://lotus"] |},
     Returned (Some "Dial err:dial tcp: connection refused")).
Proof.
  destruct (@NewManager_hides_watcher_failure Sample.lib Sample.down (cfg Sample.m)
              SampleMore.received [] init "dial tcp: connection refused" eq_refl)
    as (manager & watcher & responder & Hn & _ & Hw & _).
  exists manager, watcher, responder. split; [exact Hn | exact Hw].
Defined.

(* ------------------------------------------------------------------ *)
(** ** The further properties on the sample node and endpoint *)

Lemma outbound_passes_exact_amount_witness :
  calls (fst (execute (Sample.healthy 0) DoMint Sample.m "0xbob"
                (decimal (2 ^ 70)) init)) =
  [CallDial "https://lotus"; CallNewAbi "0xtoken" "https://lotus";
   CallNetworkID "https://lotus";
   CallMint "0xtoken" {| opts_Signer := SignTx 314 "key"; opts_From := "0xfrom" |}
            "0xbob" (2 ^ 70)].
Proof.
  apply (outbound_passes_exact_amount (lib := Sample.lib) (Sample.healthy 0)
           Sample.m DoMint "0xbob" (2 ^ 70) init
           (client := "https://lotus") (myAbi := "0xtoken")
           (privateKey := "key") (publicKeyECDSA := "key") (chainID := 314));
    reflexivity.
Defined.

Lemma outbound_malformed_amount_witness :
  starts_without_digit "ten" = true /\
  execute (Sample.healthy 0) DoTransfer Sample.m "0xbob" "ten" init =
  ({| pubs := [];
      calls := [CallDial "https://lotus"; CallNewAbi "0xtoken" "https://lotus";
                CallNetworkID "https://lotus";
                CallTransfer "0xtoken"
                  {| opts_Signer := SignTx 314 "key"; opts_From := "0xfrom" |}
                  "0xbob" 0] |},
   ("0xsent", None)).
Proof.
  split; [reflexivity|].
  apply (outbound_malformed_amount_is_zero (lib := Sample.lib) (Sample.healthy 0)
           Sample.m DoTransfer "0xbob" "ten" init
           (client := "https://lotus") (myAbi := "0xtoken")
           (privateKey := "key") (publicKeyECDSA := "key") (chainID := 314));
    reflexivity.
Defined.

Lemma outbound_calls_in_order_witness :
  failed SampleMore.no_chain_id 2 (CallNetworkID "https://lotus") = true /\
  exists (n : nat) (new : list Call),
    calls (fst (execute SampleMore.no_chain_id DoMint Sample.m "0xbob" "25" init)) =
    new /\
    map kind new = firstn n [KDial; KNewAbi; KNetworkID; KMint] /\
    n = 3%nat /\
    snd (snd (execute SampleMore.no_chain_id DoMint Sample.m "0xbob" "25" init)) <>
    None.
Proof.
  split; [reflexivity|].
  destruct (@outbound_calls_in_order Sample.lib SampleMore.no_chain_id Sample.m
              DoMint "0xbob" "25" init)
    as (n & new & _ & _ & Hc & Hk & _ & Hf & _ & _).
  exists n, new. split; [exact Hc|]. split; [exact Hk|].
  cbn in Hc. subst new.
  destruct (Hf 2%nat (@CallNetworkID Sample.lib "https://lotus") eq_refl eq_refl)
    as [Hn He].
  split; [symmetry; exact Hn | exact He].
Defined.

Lemma outbound_error_names_stage_witness :
  snd (execute SampleMore.no_chain_id DoTransfer Sample.m "0xbob" "25" init) =
  (EmptyString, Some "NetworkID err:method not found") /\
  exists (front : list Call) (c : Call) (msg : string),
    calls (fst (execute SampleMore.no_chain_id DoTransfer Sample.m "0xbob" "25" init)) =
    (front ++ [c])%list /\
    error_message SampleMore.no_chain_id (List.length front) c = Some msg /\
    "NetworkID err:method not found" = (outbound_prefix c ++ msg)%string.
Proof.
  split; [reflexivity|].
  destruct (@outbound_error_names_stage Sample.lib SampleMore.no_chain_id Sample.m
              DoTransfer "0xbob" "25" init EmptyString
              "NetworkID err:method not found" eq_refl)
    as (_ & _ & [(front & c & msg & Hc & _ & Hm & He)
                | [(_ & msg & Hk & _) | (_ & k & _ & Hk & _)]]).
  - exists front, c, msg. split; [exact Hc|]. split; [exact Hm | exact He].
  - discriminate Hk.
  - discriminate Hk.
Defined.

Lemma watch_loop_publishes_kept_transfers_witness :
  (forall t, exists sub, abi_WatchTransfer (Sample.healthy 0) t "0xtoken" = Ok sub) /\
  pubs (fst (watch_loop (Sample.healthy 0) Sample.m "0xtoken" 2%nat
               SampleMore.received SampleMore.subscribed)) =
  [transfer_event (Sample.transfer 5 false); transfer_event (Sample.transfer 7 false)].
Proof.
  assert (H : forall t, exists sub,
               abi_WatchTransfer (Sample.healthy 0) t "0xtoken" = Ok sub).
  { intros t. exists t. reflexivity. }
  split; [exact H|].
  apply (watch_loop_publishes_kept_transfers (lib := Sample.lib) (Sample.healthy 0)
           Sample.m "0xtoken" H SampleMore.received 2%nat SampleMore.subscribed).
Defined.

Lemma watch_loop_resubscribes_once_witness :
  (forall t, exists sub, abi_WatchTransfer (Sample.healthy 0) t "0xtoken" = Ok sub) /\
  calls (fst (watch_loop (Sample.healthy 0) Sample.m "0xtoken" 2%nat
                SampleMore.received SampleMore.subscribed)) =
  (calls SampleMore.subscribed ++ [CallWatchTransfer "0xtoken"])%list.
Proof.
  assert (H : forall t, exists sub,
               abi_WatchTransfer (Sample.healthy 0) t "0xtoken" = Ok sub).
  { intros t. exists t. reflexivity. }
  split; [exact H|].
  apply (watch_loop_resubscribes_once_per_error (lib := Sample.lib) (Sample.healthy 0)
           Sample.m "0xtoken" H SampleMore.received 2%nat SampleMore.subscribed).
Defined.

Lemma watchTransactions_publishes_a_prefix_witness :
  snd (watchTransactions (Sample.healthy 0) Sample.m SampleMore.received init) = Blocked /\
  exists n : nat,
    pubs (fst (watchTransactions (Sample.healthy 0) Sample.m SampleMore.received init)) =
    map transfer_event (kept_transfers (firstn n SampleMore.received)) /\
    n = 5%nat.
Proof.
  split; [reflexivity|].
  destruct (watchTransactions_publishes_a_prefix (lib := Sample.lib) (Sample.healthy 0)
              Sample.m SampleMore.received init) as (n & _ & Hp & Hb).
  exists n. split; [exact Hp|]. apply Hb. reflexivity.
Defined.

Lemma watchTransactions_returns_witness :
  snd (watchTransactions Sample.flaky Sample.m SampleMore.received init) =
  Returned (Some "Transfer err:connection refused") /\
  last_call_failed Sample.flaky
    (calls (fst (watchTransactions Sample.flaky Sample.m SampleMore.received init))).
Proof.
  split; [reflexivity|].
  apply (watchTransactions_returns_on_failed_call (lib := Sample.lib) Sample.flaky
           Sample.m SampleMore.received init
           (err := Some "Transfer err:connection refused")).
  reflexivity.
Defined.

Lemma watch_publishes_exact_value_witness :
  Removed (Raw (Sample.transfer 5 false)) = false /\
  - 2 ^ 63 <= Value (Sample.transfer 5 false) < 2 ^ 63 /\
  pubs (fst (watch_iteration (Sample.healthy 0) Sample.m "0xtoken" 2%nat
               (RecvSink (Sample.transfer 5 false)) init)) =
  [(EventTransferWatch,
    Watch {| FvmTransferWatch.ID := "0xtx1";
             FvmTransferWatch.From := "0xalice";
             FvmTransferWatch.To := "0xservice";
             FvmTransferWatch.Value := 5 |})].
Proof.
  assert (Hr : - 2 ^ 63 <= Value (Sample.transfer 5 false) < 2 ^ 63) by (cbn; lia).
  split; [reflexivity|]. split; [exact Hr|].
  apply (watch_publishes_exact_value_iff (lib := Sample.lib) (Sample.healthy 0)
           Sample.m "0xtoken" 2%nat (Sample.transfer 5 false) init eq_refl).
  exact Hr.
Defined.

Lemma watch_amounts_collide_witness :
  watch_iteration (Sample.healthy 0) Sample.m "0xtoken" 2%nat
    (RecvSink (Sample.transfer (5 + 1 * 2 ^ 64) false)) init =
  watch_iteration (Sample.healthy 0) Sample.m "0xtoken" 2%nat
    (RecvSink (Sample.transfer 5 false)) init.
Proof.
  apply (@watch_amounts_collide Sample.lib (Sample.healthy 0) Sample.m
           "0xtoken" 2%nat (Sample.transfer 5 false) 1 init); cbn; lia.
Defined.

Lemma CheckMessage_twice_witness :
  pubs (fst (CheckMessage (Sample.healthy 0) Sample.m "0xtx"
               (fst (CheckMessage (Sample.healthy 0) Sample.m "0xtx" init)))) =
  [SampleMore.tx_event; SampleMore.tx_event].
Proof.
  apply (@CheckMessage_twice_publishes_twice Sample.lib (Sample.healthy 0)
           Sample.m "0xtx" init "0xtx"
           SampleMore.confirmed_message SampleMore.confirmed_lookup).
  - repeat split.
  - repeat split.
  - reflexivity.
Defined.


Lemma DescribeSecurityGroups_witness :
  snd (aliyun.DescribeSecurityGroups Sample.ecs SampleMore.sdk
         "cn-hangzhou" "id" "secret") =
  (["sg-1"], Some aliyun.nil_dereference_error).
Proof.
  apply (@DescribeSecurityGroups_returns_ids_so_far Z string unit unit unit unit
           unit unit unit unit Sample.ecs SampleMore.sdk
           "cn-hangzhou" "id" "secret" "cn-hangzhou"
           [Some (Some "sg-1"); Some None; Some (Some "sg-3")]);
    reflexivity.
Defined.

Lemma AttachKeyPair_witness :
  aliyun.AttachKeyPair Sample.ecs SampleMore.sdk SampleMore.marshal
    "cn-hangzhou" "id" "secret" "name" ["i-1"; "i-2"] =
  ([aliyun.AttachKeyPairRequest Z "cn-hangzhou" "name" "i-1,i-2"],
   ([ {| aliyun.attach_Code := "200"; aliyun.attach_InstanceId := "i-1";
         aliyun.attach_Message := "ok"; aliyun.attach_Success := "true" |} ],
    Some aliyun.nil_dereference_error)).
Proof.
  apply (@AttachKeyPair_returns_results_so_far Z string unit unit unit unit
           unit unit unit unit Sample.ecs SampleMore.sdk
           SampleMore.marshal "cn-hangzhou" "id" "secret" "name" ["i-1"; "i-2"]
           "cn-hangzhou"
           [Some {| aliyun.ar_Code := Some "200";
                    aliyun.ar_InstanceId := Some "i-1";
                    aliyun.ar_Message := Some "ok";
                    aliyun.ar_Success := Some "true" |};
            None]);
    reflexivity.
Defined.

Lemma response_iff_no_error_witness :
  fst (snd (aliyun.CreateKeyPair Sample.ecs SampleMore.sdk
              "cn-hangzhou" "id" "secret" "name")) <> None /\
  snd (snd (aliyun.CreateKeyPair Sample.ecs SampleMore.sdk
              "cn-hangzhou" "id" "secret" "name")) = None.
Proof.
  split; [discriminate|].
  destruct (@response_iff_no_error Z 0 string unit unit unit unit unit unit unit
              unit Sample.ecs SampleMore.sdk
              "cn-hangzhou" "id" "secret" "ecs.t5" "ubuntu" "pw" "sg-1" "Month"
              "Hour" "name" 1 false) as (_ & _ & _ & Hp).
  destruct (snd (snd (aliyun.CreateKeyPair Sample.ecs SampleMore.sdk
                        "cn-hangzhou" "id" "secret" "name"))) as [e|] eqn:E;
    [|reflexivity].
  assert (Hnone : Some e <> None) by discriminate.
  apply Hp in Hnone. discriminate Hnone.
Defined.

Lemma wrappers_pass_sdk_errors_witness :
  ecs_answers_with_error SampleMore.over_quota_ecs (aliyun.IsSDKError SampleMore.quota) /\
  sdk_answers_with_error SampleMore.over_quota_sdk (aliyun.IsSDKError SampleMore.quota) /\
  aliyun.DescribeRegionsWithOptions SampleMore.over_quota_sdk "cn-hangzhou"
    (aliyun.DescribeRegionsRequest Z) =
  aliyun.Reply (Some tt) (Some (aliyun.IsSDKError SampleMore.quota)) /\
  aliyun.DescribeRegions SampleMore.over_quota_ecs SampleMore.over_quota_sdk
    "id" "secret" =
  ([aliyun.DescribeRegionsRequest Z], (Some tt, Some SampleMore.quota)) /\
  aliyun.failure 0 SampleMore.over_quota_ecs SampleMore.over_quota_sdk
    SampleMore.marshal (aliyun.InvDescribeRegions Z "id" "secret") =
  Some SampleMore.quota.
Proof.
  assert (He : ecs_answers_with_error SampleMore.over_quota_ecs
                 (aliyun.IsSDKError SampleMore.quota)).
  { split; intros; reflexivity. }
  assert (Hs : sdk_answers_with_error SampleMore.over_quota_sdk
                 (aliyun.IsSDKError SampleMore.quota)).
  { repeat split; intros; eexists; reflexivity. }
  split; [exact He|]. split; [exact Hs|].
  split; [reflexivity|]. split; [reflexivity|].
  exact (@wrappers_pass_sdk_errors Z 0 string unit unit unit unit unit unit unit unit
           SampleMore.over_quota_ecs SampleMore.over_quota_sdk SampleMore.marshal
           (aliyun.IsSDKError SampleMore.quota)
           (aliyun.InvDescribeRegions Z "id" "secret") He Hs).
Defined.
